(** * birdnest: the no-drone-zone (NDZ) violation monitor

    A shallow embedding of [backend/src/NDZviolationMonitoring.ts].  The
    repository carries two revisions of the class [NDZViolationMonitor];
    the parts they share are modelled once, the parts that differ live in
    the modules [V1] (first revision) and [V2] (second revision).

    Modelling choices:
    - a JavaScript [number] holding a coordinate or a distance is an IEEE 754
      binary64 value, i.e. a primitive [float];
    - a [Date] is its time value in milliseconds ([getTime()]), a [Z];
    - [this.violations] is a [list]; the objects it holds are mutated in
      place by the source, which is modelled by updating the list at the index
      of the object;
    - the object built by [Object.fromEntries] is a [gmap] from serial
      numbers to such indices;
    - every network answer is an input of the model, and the requests a call
      issues are returned next to the new state;
    - the answer of the feed is the [<capture>] element of the XML document;
      what [xmlParser.parse] makes of its [<drone>] children depends on their
      number, since the parser is built without the [isArray] option: no
      property for none, the object of the drone for one, an array for two
      or more;
    - an exception that ends [checkNewViolations] rejects the promise of the
      call, which nothing awaits; the model goes on with the monitor as the
      call left it (should the runtime end the process instead, what the
      process does is the beginning of a run of the model);
    - an [async] method is run to completion: the awaited answers are there
      when the method asks for them, and no other callback runs in between;
    - a [setTimeout] callback is kept by the time at which it is due, and
      runs before the first call made at or after that time;
    - the callback of [setInterval] calls [checkNewViolations] without
      awaiting it: the call returns at its first [await], and what follows
      the [await] runs after [removeTooOldViolations]. *)

From Stdlib Require Import ZArith Floats Lia.
From stdpp Require Import base option strings list gmap.

(** ** Numbers *)

Module Number.

Definition number := float.

(** [a <= b] on JavaScript numbers: false as soon as one side is NaN. *)
Definition le (a b : number) : bool := (a <=? b)%float.

(** [a ** 2], taken as the correctly rounded square of [a]. *)
Definition sq (a : number) : number := (a * a)%float.

(** NaN is the one number that is not [<=] itself. *)
Definition isNaN (a : number) : bool := negb (le a a).

End Number.

Abbreviation number := Number.number.

(** ** Data model *)

Record PilotInfo := {
  firstName : string;
  lastName : string;
  phoneNumber : string;
  email : string }.

(** [interface NDZViolation]; [pilot] is [null] when it is [None]. *)
Record NDZViolation := {
  serialNumber : string;
  closestDistanceInMm : number;
  pilot : option PilotInfo;
  latestCaptureDateAndTime : Z }.

(** One [drone] entry of the parsed report. *)
Record Drone := {
  droneSerialNumber : string;
  positionX : number;
  positionY : number }.

(** The [<capture>] element of the feed: the attribute
    [snapshotTimestamp], read through [new Date(...)], and the [<drone>]
    children in the order of the document. *)
Record Capture := {
  snapshotTimestamp : Z;
  drone : list Drone }.

(** The value of [droneReport.report.capture.drone].  [XMLParser] is built
    with [ignoreAttributes] and [attributeNamePrefix] only: a tag that occurs
    once under its parent becomes a property holding the object of the
    element, a tag that occurs several times a property holding an array,
    and without a [<drone>] child the capture has no property [drone]. *)
Inductive DroneProperty :=
| DroneUndefined
| DroneObject (d : Drone)
| DroneArray (ds : list Drone).

Definition parsedDrones (capture : Capture) : DroneProperty :=
  match drone capture with
  | [] => DroneUndefined
  | [d] => DroneObject d
  | ds => DroneArray ds
  end.

Arguments parsedDrones : simpl never.

(** The elements of [distToNDZCenterPerDrone]. *)
Record DistAndDrone := {
  ddSerialNumber : string;
  distance : number }.

(** *** What the network answers *)

(** How the [try] block of [fetchDrones] ends. *)
Inductive DronesAnswer :=
| DronesParsed (capture : Capture)
    (* [axios.get] resolved with a document that has this capture, and
       [xmlParser.parse] returned its report *)
| DronesAxiosError (status : option Z)
    (* an axios error; [status] is [error.response.status] when the error
       carries a response *)
| DronesOtherError.
    (* any other thrown value *)

(** A settled pilot request, as [Promise.allSettled] reports it.  [data] is
    [None] when [response.data] is [null] or [undefined]. *)
Inductive PilotAnswer :=
| PilotFulfilled (status : Z) (data : option PilotInfo)
| PilotRejected.

Inductive Request :=
| GetDrones
| GetPilot (droneSerialNumber : string).

(** ** The parts both revisions share *)

Definition minToStoreViolationFor : Z := 10.
Definition fetchIntervalInSecs : Z := 2.
Definition NDZRadiusInMm : number := 100000%float.
Definition NDZcenterPosX : number := 250000%float.
Definition NDZcenterPosY : number := 250000%float.

Definition calcDistanceToNDZcenter (d : Drone) : number :=
  let x := (positionX d - NDZcenterPosX)%float in
  let y := (positionY d - NDZcenterPosY)%float in
  PrimFloat.sqrt (Number.sq (PrimFloat.abs x) + Number.sq (PrimFloat.abs y))%float.

(** [droneCapture.map(drone => ({serialNumber, distance}))] *)
Definition distPerDrone (droneCapture : list Drone) : list DistAndDrone :=
  map (λ d, {| ddSerialNumber := droneSerialNumber d;
               distance := calcDistanceToNDZcenter d |}) droneCapture.

(** [.filter(({ distance }) => distance <= NDZRadiusInMm)] *)
Definition tooClose (dists : list DistAndDrone) : list DistAndDrone :=
  List.filter (λ dd, Number.le (distance dd) NDZRadiusInMm) dists.

(** The callback of [results.map] in [fetchPilots].  The outer [None] is the
    exception raised when the parameter pattern
    [{ firstName, lastName, phoneNumber, email }] is matched against a
    [null] or [undefined] body. *)
Definition pilotOfResult (result : PilotAnswer) : option (option PilotInfo) :=
  match result with
  | PilotFulfilled status data =>
      if (status =? 200)%Z then
        p ← data;
        Some (Some {| firstName := firstName p; lastName := lastName p;
                      phoneNumber := phoneNumber p; email := email p |})
      else Some None
  | PilotRejected => Some None
  end.

(** [fetchPilots]: [None] is the [null] returned by the [catch] block. *)
Definition fetchPilots (axiosGet : string → PilotAnswer)
    (droneSerialNumbers : list string) : option (list (option PilotInfo)) :=
  let results := map axiosGet droneSerialNumbers in
  mapM pilotOfResult results.

(** The body both revisions run on a violation that is already stored:
    the capture time is overwritten, the distance only by a smaller or equal
    one. *)
Definition updateViolation (dateAndTime : Z) (dist : number)
    (violation : NDZViolation) : NDZViolation :=
  {| serialNumber := serialNumber violation;
     closestDistanceInMm :=
       if Number.le dist (closestDistanceInMm violation) then dist
       else closestDistanceInMm violation;
     pilot := pilot violation;
     latestCaptureDateAndTime := dateAndTime |}.

(** [removeTooOldViolations], on the array; [now] is [new Date().getTime()]. *)
Definition keepViolation (now : Z) (violation : NDZViolation) : bool :=
  let msToStoreFor := (minToStoreViolationFor * 60 * 1000)%Z in
  let timeDiff := (now - latestCaptureDateAndTime violation)%Z in
  (timeDiff <=? msToStoreFor)%Z.

Definition removeTooOld (now : Z) (vs : list NDZViolation) : list NDZViolation :=
  List.filter (keepViolation now) vs.

(** Pending [setTimeout(() => (this.throttle = false), 6000)] callbacks, each
    by the time at which it is due. *)
Definition dueTimeouts (now : Z) (timeouts : list Z) : list Z :=
  List.filter (λ t, (t <=? now)%Z) timeouts.

Definition pendingTimeouts (now : Z) (timeouts : list Z) : list Z :=
  List.filter (λ t, negb (t <=? now)%Z) timeouts.

(** ** Second revision (the exported [violationMonitor]) *)

Module V2.

Record Monitor := {
  violations : list NDZViolation;
  _lastUpdatedAt : option Z;
  throttle : bool;
  timeouts : list Z }.

(** [new NDZViolationMonitor()] *)
Definition initial : Monitor :=
  {| violations := []; _lastUpdatedAt := None; throttle := false;
     timeouts := [] |}.

Definition setViolations (vs : list NDZViolation) (m : Monitor) : Monitor :=
  {| violations := vs; _lastUpdatedAt := _lastUpdatedAt m;
     throttle := throttle m; timeouts := timeouts m |}.

Definition lastUpdatedAt (m : Monitor) : option Z := _lastUpdatedAt m.

Definition getViolations (m : Monitor) : list NDZViolation := violations m.

(** [fetchDrones], called at time [now]. *)
Definition fetchDrones (now : Z) (answer : DronesAnswer) (m : Monitor)
    : Monitor * option Capture :=
  match answer with
  | DronesParsed capture => (m, Some capture)
  | DronesAxiosError (Some status) =>
      if (status =? 429)%Z then
        ({| violations := violations m; _lastUpdatedAt := _lastUpdatedAt m;
            throttle := true; timeouts := timeouts m ++ [(now + 6000)%Z] |},
         None)
      else (m, None)
  | DronesAxiosError None => (m, None)
  | DronesOtherError => (m, None)
  end.

(** [Object.fromEntries]: a later entry replaces an earlier one with the
    same key. *)
Definition fromEntries {V} (entries : list (string * V)) : gmap string V :=
  fold_left (λ o kv, <[kv.1 := kv.2]> o) entries ∅.

(** [updateViolations].  The values of [serialNumberViolationMap] are the
    violation objects of [this.violations], here their indices. *)
Definition updateViolations (distancePerDrone : list DistAndDrone)
    (dateAndTime : Z) (vs : list NDZViolation) : list NDZViolation :=
  let serialNumberViolationMap : gmap string nat :=
    fromEntries (imap (λ i violation, (serialNumber violation, i)) vs) in
  fold_left
    (λ vs distAndDrone,
       match serialNumberViolationMap !! ddSerialNumber distAndDrone with
       | Some violation =>
           alter (updateViolation dateAndTime (distance distAndDrone))
                 violation vs
       | None => vs
       end)
    distancePerDrone vs.

(** [removeTooOldViolations] *)
Definition removeTooOldViolations (now : Z) (m : Monitor) : Monitor :=
  setViolations (removeTooOld now (violations m)) m.

(** The constants [tooCloseDistPerNewDrone] and [newViolations] of
    [checkNewViolations]. *)
Definition tooCloseDistPerNewDrone (vs : list NDZViolation)
    (tooCloseDistPerDrone : list DistAndDrone) : list DistAndDrone :=
  let existingSerialNumbers := map serialNumber vs in
  List.filter
    (λ dd, negb (bool_decide (ddSerialNumber dd ∈ existingSerialNumbers)))
    tooCloseDistPerDrone.

Definition newViolations (capture : Capture)
    (newPilots : list (option PilotInfo))
    (tooCloseDistPerNewDrone : list DistAndDrone) : list NDZViolation :=
  imap (λ index dd,
          {| serialNumber := ddSerialNumber dd;
             pilot := default None (newPilots !! index);
             closestDistanceInMm := distance dd;
             latestCaptureDateAndTime := snapshotTimestamp capture |})
       tooCloseDistPerNewDrone.

(** The argument [checkNewViolations] gives to [fetchPilots] when it gets
    that far, the report holding the drones of the capture as an array. *)
Definition newSerialNumbers (m : Monitor) (capture : Capture) : list string :=
  map ddSerialNumber
      (tooCloseDistPerNewDrone (violations m)
                               (tooClose (distPerDrone (drone capture)))).

(** [checkNewViolations], called at time [now], with the answers of the
    network; the requests it issued are returned with the new state. *)
Definition checkNewViolations (now : Z) (dronesAnswer : DronesAnswer)
    (axiosGet : string → PilotAnswer) (m : Monitor)
    : Monitor * list Request :=
  if throttle m then (m, []) else
  let '(m, droneReport) := fetchDrones now dronesAnswer m in
  match droneReport with
  | None => (m, [GetDrones])
  | Some capture =>
    match parsedDrones capture with
    | DroneUndefined =>
        (* [droneCapture.length] throws a TypeError: the promise of the call
           is rejected, nothing has been assigned *)
        (m, [GetDrones])
    | DroneObject _ =>
        (* [droneCapture.length] is [undefined] *)
        (m, [GetDrones])
    | DroneArray droneCapture =>
      if (length droneCapture =? 0)%nat then (m, [GetDrones]) else
      let distToNDZCenterPerDrone := distPerDrone droneCapture in
      let tooCloseDistPerDrone := tooClose distToNDZCenterPerDrone in
      if (length tooCloseDistPerDrone =? 0)%nat then (m, [GetDrones]) else
      let tooCloseDistPerNewDrone :=
        tooCloseDistPerNewDrone (violations m) tooCloseDistPerDrone in
      let droneSerialNumbers := map ddSerialNumber tooCloseDistPerNewDrone in
      let requests := GetDrones :: map GetPilot droneSerialNumbers in
      match fetchPilots axiosGet droneSerialNumbers with
      | None => (m, requests)
      | Some newPilots =>
        let newViolations :=
          newViolations capture newPilots tooCloseDistPerNewDrone in
        let vs := violations m ++ newViolations in
        let vs :=
          updateViolations distToNDZCenterPerDrone (snapshotTimestamp capture)
                           vs in
        ({| violations := vs; _lastUpdatedAt := Some now;
            throttle := throttle m; timeouts := timeouts m |}, requests)
      end
    end
  end.

(** *** The timer callbacks *)

(** The event loop runs the [setTimeout] callbacks that are due. *)
Definition runTimeouts (now : Z) (m : Monitor) : Monitor :=
  {| violations := violations m; _lastUpdatedAt := _lastUpdatedAt m;
     throttle :=
       match dueTimeouts now (timeouts m) with
       | [] => throttle m
       | _ :: _ => false
       end;
     timeouts := pendingTimeouts now (timeouts m) |}.

(** What the process does after [start()]: calls of the two methods, each at
    its time, in any order the interval brings them. *)
Inductive Call :=
| CheckNewViolations (dronesAnswer : DronesAnswer)
                     (axiosGet : string → PilotAnswer)
| RemoveTooOldViolations.

Definition call (now : Z) (c : Call) (m : Monitor) : Monitor * list Request :=
  let m := runTimeouts now m in
  match c with
  | CheckNewViolations dronesAnswer axiosGet =>
      checkNewViolations now dronesAnswer axiosGet m
  | RemoveTooOldViolations => (removeTooOldViolations now m, [])
  end.

Fixpoint run (calls : list (Z * Call)) (m : Monitor) : Monitor * list Request :=
  match calls with
  | [] => (m, [])
  | (now, c) :: calls =>
      let '(m, requests) := call now c m in
      let '(m, more) := run calls m in
      (m, requests ++ more)
  end.

Definition reachable (m : Monitor) : Prop :=
  ∃ calls, (run calls initial).1 = m.

(** The callback [start()] gives to [setInterval], run at time [now]:
    [this.checkNewViolations(); this.removeTooOldViolations();].  The first
    call is not awaited.  It tests the throttle and, when the throttle is
    off, returns at [await this.fetchDrones()]; the eviction runs next, and
    the rest of [checkNewViolations] after it.  The eviction does not touch
    the throttle, so the test gives the same after it as before it. *)
Definition intervalCallback (now : Z) (dronesAnswer : DronesAnswer)
    (axiosGet : string → PilotAnswer) : list (Z * Call) :=
  [(now, RemoveTooOldViolations);
   (now, CheckNewViolations dronesAnswer axiosGet)].

(** A sequence of poll cycles, each with its time and the answers it gets. *)
Definition Cycle : Type := Z * DronesAnswer * (string → PilotAnswer).

Definition cycle (c : Cycle) (m : Monitor) : Monitor :=
  let '(now, dronesAnswer, axiosGet) := c in
  (call now (CheckNewViolations dronesAnswer axiosGet) m).1.

Definition cycles (cs : list Cycle) (m : Monitor) : Monitor :=
  fold_left (λ m c, cycle c m) cs m.

End V2.

(** ** First revision *)

Module V1.

Record Monitor := {
  violations : list NDZViolation;
  throttle : bool;
  timeouts : list Z }.

Definition initial : Monitor :=
  {| violations := []; throttle := false; timeouts := [] |}.

Definition fetchDrones (now : Z) (answer : DronesAnswer) (m : Monitor)
    : Monitor * option Capture :=
  match answer with
  | DronesParsed capture => (m, Some capture)
  | DronesAxiosError (Some status) =>
      if (status =? 429)%Z then
        ({| violations := violations m; throttle := true;
            timeouts := timeouts m ++ [(now + 6000)%Z] |}, None)
      else (m, None)
  | DronesAxiosError None => (m, None)
  | DronesOtherError => (m, None)
  end.

(** [addOrUpdateViolations]: [find] returns the first stored violation with
    the serial number, and sees the violations pushed earlier in the loop. *)
Definition addOrUpdateViolations (new : list NDZViolation)
    (vs : list NDZViolation) : list NDZViolation :=
  fold_left
    (λ vs violation,
       match list_find (λ v, serialNumber v = serialNumber violation) vs with
       | Some (existingViolation, _) =>
           alter (updateViolation (latestCaptureDateAndTime violation)
                                  (closestDistanceInMm violation))
                 existingViolation vs
       | None => vs ++ [violation]
       end)
    new vs.

Definition checkNewViolations (now : Z) (dronesAnswer : DronesAnswer)
    (axiosGet : string → PilotAnswer) (m : Monitor)
    : Monitor * list Request :=
  if throttle m then (m, []) else
  let '(m, droneReport) := fetchDrones now dronesAnswer m in
  match droneReport with
  | None => (m, [GetDrones])
  | Some capture =>
    match parsedDrones capture with
    | DroneUndefined => (m, [GetDrones])
    | DroneObject _ => (m, [GetDrones])
    | DroneArray droneCapture =>
      if (length droneCapture =? 0)%nat then (m, [GetDrones]) else
      let distToNestPerDrone := distPerDrone droneCapture in
      let tooCloseDistPerDrone := tooClose distToNestPerDrone in
      if (length tooCloseDistPerDrone =? 0)%nat then (m, [GetDrones]) else
      let serialNumbers := map ddSerialNumber tooCloseDistPerDrone in
      let pilots := fetchPilots axiosGet serialNumbers in
      let violations' :=
        imap (λ index dd,
                {| serialNumber := ddSerialNumber dd;
                   closestDistanceInMm := distance dd;
                   pilot :=
                     match pilots with
                     | Some pilots => default None (pilots !! index)
                     | None => None
                     end;
                   latestCaptureDateAndTime := snapshotTimestamp capture |})
             tooCloseDistPerDrone in
      ({| violations := addOrUpdateViolations violations' (violations m);
          throttle := throttle m; timeouts := timeouts m |},
       GetDrones :: map GetPilot serialNumbers)
    end
  end.

Definition removeTooOldViolations (now : Z) (m : Monitor) : Monitor :=
  {| violations := removeTooOld now (violations m);
     throttle := throttle m; timeouts := timeouts m |}.

Definition runTimeouts (now : Z) (m : Monitor) : Monitor :=
  {| violations := violations m;
     throttle :=
       match dueTimeouts now (timeouts m) with
       | [] => throttle m
       | _ :: _ => false
       end;
     timeouts := pendingTimeouts now (timeouts m) |}.

Definition Cycle : Type := Z * DronesAnswer * (string → PilotAnswer).

Definition cycle (c : Cycle) (m : Monitor) : Monitor :=
  let '(now, dronesAnswer, axiosGet) := c in
  (checkNewViolations now dronesAnswer axiosGet (runTimeouts now m)).1.

Definition cycles (cs : list Cycle) (m : Monitor) : Monitor :=
  fold_left (λ m c, cycle c m) cs m.

End V1.

(** ** The controller and the page that shows the violations *)

(** [controllers/NDZviolations.ts], second revision: the answer to
    [GET /api/ndz-violations]. *)
Module Server.

Record Response := {
  status : Z;
  accessControlAllowOrigin : option string;
  violations : list NDZViolation;
  lastUpdatedAt : option Z }.

Definition getViolations (m : V2.Monitor) : Response :=
  {| status := 200;
     accessControlAllowOrigin := Some "*";
     violations := V2.getViolations m;
     lastUpdatedAt := V2.lastUpdatedAt m |}.

End Server.

(** [frontend/index.js], the class [ViolationTable].  The elements of the
    page are kept by what the class writes to them: the [innerHTML] of the
    table body and the [style.display] of the four elements.  The markup of
    the rows is a parameter, [violationsToHTML]. *)
Module Frontend.

Record ViolationTable := {
  tableBody : string;
  tableDisplay : string;
  errorDisplay : string;
  noContentDisplay : string;
  spinnerDisplay : string;
  perviousDataDateAndTime : option Z }.

(** [getViolations]; [response] is [None] when [fetch] or
    [response.json()] throws.  The result is the pair
    [[violations, dateAndTime]], [null] being [None]. *)
Definition getViolations (response : option Server.Response)
    : option (list NDZViolation) * option Z :=
  match response with
  | None => (None, None)
  | Some response =>
      if negb (Server.status response =? 200)%Z then (None, None)
      else
        let updatedAt :=
          match Server.lastUpdatedAt response with
          | Some t => Some t
          | None => None
          end in
        (Some (Server.violations response), updatedAt)
  end.

(** The test that makes [updateTableContent] return before it touches the
    page. *)
Definition arrivedLate (dateAndTime : option Z) (t : ViolationTable) : bool :=
  match dateAndTime, perviousDataDateAndTime t with
  | Some dateAndTime, Some pervious => (dateAndTime <? pervious)%Z
  | _, _ => false
  end.

(** [updateTableContent], with the response its request got. *)
Definition updateTableContent
    (violationsToHTML : list NDZViolation → string)
    (response : option Server.Response) (t : ViolationTable)
    : ViolationTable :=
  let '(violations, dateAndTime) := getViolations response in
  if arrivedLate dateAndTime t then t else
  let pervious :=
    match dateAndTime with
    | Some dateAndTime => Some dateAndTime
    | None => perviousDataDateAndTime t
    end in
  match violations with
  | None =>
      {| tableBody := ""; tableDisplay := "none"; errorDisplay := "block";
         noContentDisplay := "none"; spinnerDisplay := "none";
         perviousDataDateAndTime := pervious |}
  | Some [] =>
      {| tableBody := ""; tableDisplay := "none"; errorDisplay := "none";
         noContentDisplay := "block"; spinnerDisplay := "none";
         perviousDataDateAndTime := pervious |}
  | Some violations =>
      {| tableBody := violationsToHTML violations; tableDisplay := "block";
         errorDisplay := "none"; noContentDisplay := "none";
         spinnerDisplay := "none"; perviousDataDateAndTime := pervious |}
  end.

(** The responses of the page's requests, in the order in which they
    arrive. *)
Definition updates (violationsToHTML : list NDZViolation → string)
    (responses : list (option Server.Response)) (t : ViolationTable)
    : ViolationTable :=
  fold_left (λ t response, updateTableContent violationsToHTML response t)
            responses t.

End Frontend.

(** ** Sample data *)

Module Sample.

Definition droneAt (serial : string) (x y : number) : Drone :=
  {| droneSerialNumber := serial; positionX := x; positionY := y |}.

Definition pilotOf (serial : string) : PilotInfo :=
  {| firstName := "Pilot"; lastName := serial;
     phoneNumber := "+358000000"; email := "pilot@example.com" |}.

(** Every pilot request is answered with status 200 and a pilot record. *)
Definition allFound (serial : string) : PilotAnswer :=
  PilotFulfilled 200 (Some (pilotOf serial)).

(** The request for ["D2"] is rejected, the others are answered. *)
Definition d2Rejected (serial : string) : PilotAnswer :=
  if bool_decide (serial = "D2") then PilotRejected else allFound serial.

(** The request for ["D2"] is answered with status 200 and the body [null]. *)
Definition d2NullBody (serial : string) : PilotAnswer :=
  if bool_decide (serial = "D2") then PilotFulfilled 200 None
  else allFound serial.

(** Every pilot request is answered with the record of somebody else. *)
Definition somebodyElse (serial : string) : PilotAnswer :=
  PilotFulfilled 200 (Some (pilotOf "somebody else")).

(** ["D1"] was last seen inside the zone at time 1000. *)
Definition tracked : V2.Monitor :=
  {| V2.violations :=
       [ {| serialNumber := "D1"; closestDistanceInMm := 50000%float;
            pilot := Some (pilotOf "D1"); latestCaptureDateAndTime := 1000 |} ];
     V2._lastUpdatedAt := Some 1001%Z; V2.throttle := false;
     V2.timeouts := [] |}.

(** The snapshot that made [tracked]: ["D1"] 50 m from the centre, ["D3"]
    at the origin, outside the zone. *)
Definition d1Inside : Capture :=
  {| snapshotTimestamp := 1000;
     drone := [ droneAt "D1" 250000%float 300000%float;
                droneAt "D3" 0%float 0%float ] |}.

(** ["D1"] has left the zone (it is at the origin, more than 353 m from the
    centre), ["D2"] is at the centre. *)
Definition d1OutsideD2Inside : Capture :=
  {| snapshotTimestamp := 3000;
     drone := [ droneAt "D1" 0%float 0%float;
                droneAt "D2" 250000%float 250000%float ] |}.

(** One snapshot lists ["D1"] twice, both times inside the zone. *)
Definition d1Twice : Capture :=
  {| snapshotTimestamp := 3000;
     drone := [ droneAt "D1" 250000%float 250000%float;
                droneAt "D1" 250000%float 300000%float ] |}.

Definition d1d2Inside : Capture :=
  {| snapshotTimestamp := 3000;
     drone := [ droneAt "D1" 250000%float 300000%float;
                droneAt "D2" 250000%float 250000%float ] |}.

Definition noDrones : Capture :=
  {| snapshotTimestamp := 3000; drone := [] |}.

(** ["D1"] and ["D3"], both outside the zone. *)
Definition d1Outside : Capture :=
  {| snapshotTimestamp := 3000;
     drone := [ droneAt "D1" 0%float 0%float;
                droneAt "D3" 500000%float 500000%float ] |}.

(** ["D1"] at the centre of the zone, the one drone of the snapshot. *)
Definition d1Alone : Capture :=
  {| snapshotTimestamp := 3000;
     drone := [ droneAt "D1" 250000%float 250000%float ] |}.

(** ["D1"] at the centre of the zone, ["D3"] at the origin. *)
Definition d1AtCentre : Capture :=
  {| snapshotTimestamp := 3000;
     drone := [ droneAt "D1" 250000%float 250000%float;
                droneAt "D3" 0%float 0%float ] |}.

(** The page as its constructor leaves it: nothing written to the elements
    yet, no timestamp remembered. *)
Definition page : Frontend.ViolationTable :=
  {| Frontend.tableBody := ""; Frontend.tableDisplay := "";
     Frontend.errorDisplay := ""; Frontend.noContentDisplay := "";
     Frontend.spinnerDisplay := "";
     Frontend.perviousDataDateAndTime := None |}.

(** One row per violation, holding the serial number. *)
Definition rows (violations : list NDZViolation) : string :=
  String.concat "" (map (λ v, "<tr>" +:+ serialNumber v +:+ "</tr>")
                        violations).

(** The state of [tracked], in the first revision. *)
Definition trackedV1 : V1.Monitor :=
  {| V1.violations := V2.violations tracked; V1.throttle := false;
     V1.timeouts := [] |}.

(** The serial number and the capture time of every stored violation. *)
Definition captureTimes (vs : list NDZViolation) : list (string * Z) :=
  map (λ v, (serialNumber v, latestCaptureDateAndTime v)) vs.

End Sample.

(** ** Vocabulary of the statements *)

(** The drone is inside the no-drone zone, as [checkNewViolations] tests it. *)
Definition withinRadius (d : Drone) : Prop :=
  Number.le (calcDistanceToNDZcenter d) NDZRadiusInMm = true.

(** [m] is the smaller of [a] and [b]. *)
Definition isMin (m a b : number) : Prop :=
  Number.le m a = true ∧ Number.le m b = true ∧ (m = a ∨ m = b).

(** Every object of the array [l] is still in [l'], at its index, and is
    related by [R] to what it was. *)
Definition keeps {A} (R : relation A) (l l' : list A) : Prop :=
  ∀ i x, l !! i = Some x → ∃ x', l' !! i = Some x' ∧ R x x'.

Definition sameSerialNumber : relation NDZViolation :=
  λ v v', serialNumber v' = serialNumber v.

Definition samePilot : relation NDZViolation :=
  λ v v', serialNumber v' = serialNumber v ∧ pilot v' = pilot v.

(** Same drone, and a distance that did not grow (when it was a number). *)
Definition notFarther : relation NDZViolation :=
  λ v v', serialNumber v' = serialNumber v ∧
          (Number.isNaN (closestDistanceInMm v) = false →
           Number.le (closestDistanceInMm v') (closestDistanceInMm v) = true).

(** What one settled pilot request stands for in the result of
    [fetchPilots], in the words of the contract: the pilot of a lookup that
    succeeded with status 200, [null] for one that failed or has another
    status. *)
Definition resolvedPilot (answer : PilotAnswer) : option PilotInfo :=
  match answer with
  | PilotFulfilled status (Some p) => if (status =? 200)%Z then Some p else None
  | PilotFulfilled _ None => None
  | PilotRejected => None
  end.

(** [v'] is [v] after zero or more runs of the update body, each with the
    capture time and the distance it was given. *)
Definition updatedBy : relation NDZViolation :=
  λ v v', ∃ updates : list (Z * number),
    v' = fold_left (λ v u, updateViolation u.1 u.2 v) updates v.

(** [evictOlderThan], in the words of the contract: every record whose
    capture time is strictly older than [now - retentionDuration] goes, the
    others stay, in their order. *)
Definition evictOlderThan (now retentionDuration : Z)
    (vs : list NDZViolation) : list NDZViolation :=
  List.filter
    (λ v, negb (latestCaptureDateAndTime v <? now - retentionDuration)%Z) vs.

Definition tenMinutes : Z := 10 * 60 * 1000.

(** The throttle flag is set exactly while one callback that clears it is
    pending. *)
Definition throttleTimed (m : V2.Monitor) : Prop :=
  (V2.throttle m = false ∧ V2.timeouts m = []) ∨
  (V2.throttle m = true ∧ ∃ due, V2.timeouts m = [due]).

(** The state of the throttle during the cooldown that began at [t0]. *)
Definition cooling (t0 : Z) (m : V2.Monitor) : Prop :=
  V2.throttle m = true ∧ V2.timeouts m = [(t0 + 6000)%Z].

(** The stored closest distance is inside the zone (so it is a number). *)
Definition inZone (v : NDZViolation) : Prop :=
  Number.le (closestDistanceInMm v) NDZRadiusInMm = true.

(** At most one violation per serial number. *)
Definition onePerDrone (vs : list NDZViolation) : Prop :=
  NoDup (map serialNumber vs).

(** The drones a snapshot reports inside the zone have different serial
    numbers. *)
Definition distinctViolators (capture : Capture) : Prop :=
  NoDup (map ddSerialNumber (tooClose (distPerDrone (drone capture)))).

Definition distinctViolatorsIn (c : V2.Call) : Prop :=
  match c with
  | V2.CheckNewViolations (DronesParsed capture) _ => distinctViolators capture
  | _ => True
  end.

(** [v] is the last violation of [vs] with its serial number: the one
    [serialNumberViolationMap] holds for it. *)
Definition lastOfItsDrone (vs : list NDZViolation) (i : nat)
    (v : NDZViolation) : Prop :=
  vs !! i = Some v ∧
  ∀ j w, vs !! j = Some w → i < j → serialNumber w ≠ serialNumber v.

(** The entries of a snapshot about the drone [s], in the order of the
    snapshot. *)
Definition sightings (s : string) (dists : list DistAndDrone)
    : list DistAndDrone :=
  List.filter (λ dd, bool_decide (ddSerialNumber dd = s)) dists.

(** A violation after the update body has run for each of the sightings. *)
Definition afterSightings (t : Z) (seen : list DistAndDrone)
    (v : NDZViolation) : NDZViolation :=
  fold_left (λ v dd, updateViolation t (distance dd) v) seen v.

(** The snapshots and the pilot registries the calls of a run were given. *)
Definition capturesOf (calls : list (Z * V2.Call)) : list Capture :=
  omap (λ tc, match tc.2 with
              | V2.CheckNewViolations (DronesParsed capture) _ => Some capture
              | _ => None
              end) calls.

Definition registriesOf (calls : list (Z * V2.Call))
    : list (string → PilotAnswer) :=
  omap (λ tc, match tc.2 with
              | V2.CheckNewViolations _ axiosGet => Some axiosGet
              | V2.RemoveTooOldViolations => None
              end) calls.

(** One of the snapshots reports the drone [s] inside the zone, at the
    distance [dist]. *)
Definition sightedInside (captures : list Capture) (s : string)
    (dist : number) : Prop :=
  ∃ capture d, capture ∈ captures ∧ d ∈ drone capture ∧
               droneSerialNumber d = s ∧ withinRadius d ∧
               calcDistanceToNDZcenter d = dist.

(** One of the snapshots has the timestamp [t] and lists the drone [s]. *)
Definition listedAt (captures : list Capture) (s : string) (t : Z) : Prop :=
  ∃ capture, capture ∈ captures ∧ snapshotTimestamp capture = t ∧
             s ∈ map droneSerialNumber (drone capture).

(** The pilot, if there is one, is the body of a status-200 answer one of
    the registries gives for the drone [s]. *)
Definition pilotFrom (registries : list (string → PilotAnswer)) (s : string)
    (p : option PilotInfo) : Prop :=
  ∀ p', p = Some p' →
        ∃ axiosGet, axiosGet ∈ registries ∧
                    axiosGet s = PilotFulfilled 200 (Some p').

(** Where a stored violation comes from. *)
Definition comesFrom (captures : list Capture)
    (registries : list (string → PilotAnswer)) (v : NDZViolation) : Prop :=
  sightedInside captures (serialNumber v) (closestDistanceInMm v) ∧
  listedAt captures (serialNumber v) (latestCaptureDateAndTime v) ∧
  pilotFrom registries (serialNumber v) (pilot v).

(** The times at which the calls of a run were made. *)
Definition timesOf (calls : list (Z * V2.Call)) : list Z := map fst calls.

(** The throttle is off with no callback pending, or on with one callback
    pending that is due 6000 ms after one of the times [times]. *)
Definition throttleDueAfter (times : list Z) (m : V2.Monitor) : Prop :=
  (V2.throttle m = false ∧ V2.timeouts m = []) ∨
  (V2.throttle m = true ∧
   ∃ t, t ∈ times ∧ V2.timeouts m = [(t + 6000)%Z]).

(** [lastUpdatedAt] is [null] only while nothing is stored, and is
    otherwise one of the times [times]. *)
Definition updatedAtOneOf (times : list Z) (m : V2.Monitor) : Prop :=
  (V2.lastUpdatedAt m = None → V2.violations m = []) ∧
  (∀ t, V2.lastUpdatedAt m = Some t → t ∈ times).

(** Which of the three elements of the page is on show. *)
Inductive Showing := ShowsTable | ShowsError | ShowsNoContent.

Definition shows (what : Showing) (t : Frontend.ViolationTable) : Prop :=
  Frontend.spinnerDisplay t = "none" ∧
  Frontend.tableDisplay t
    = (if what is ShowsTable then "block" else "none") ∧
  Frontend.errorDisplay t
    = (if what is ShowsError then "block" else "none") ∧
  Frontend.noContentDisplay t
    = (if what is ShowsNoContent then "block" else "none") ∧
  (what ≠ ShowsTable → Frontend.tableBody t = "").

(** The newest timestamp the page has accepted is at least [p]. *)
Definition acceptedSince (p : Z) (t : Frontend.ViolationTable) : Prop :=
  ∃ p', Frontend.perviousDataDateAndTime t = Some p' ∧ (p ≤ p')%Z.

(** A stored violation after the loop of [addOrUpdateViolations] has met
    the violations [batch]: the update body has run for each violation of
    the batch with the serial number of [v]. *)
Definition afterBatch (batch : list NDZViolation) (v : NDZViolation)
    : NDZViolation :=
  fold_left
    (λ v x, updateViolation (latestCaptureDateAndTime x)
                            (closestDistanceInMm x) v)
    (List.filter (λ x, bool_decide (serialNumber x = serialNumber v)) batch)
    v.

(** The violations of a batch that the store [vs] does not hold. *)
Definition newIn (vs batch : list NDZViolation) : list NDZViolation :=
  List.filter
    (λ x, negb (bool_decide (serialNumber x ∈ map serialNumber vs))) batch.

(** The violation a cycle makes of a drone inside the zone, once the pilot
    lookup of the drone has settled. *)
Definition violationOf (capture : Capture) (axiosGet : string → PilotAnswer)
    (dd : DistAndDrone) : NDZViolation :=
  {| serialNumber := ddSerialNumber dd;
     closestDistanceInMm := distance dd;
     pilot := resolvedPilot (axiosGet (ddSerialNumber dd));
     latestCaptureDateAndTime := snapshotTimestamp capture |}.

(** The numbers among [l]: what is left without the NaNs. *)
Definition numbers (l : list number) : list number :=
  List.filter (λ a, negb (Number.isNaN a)) l.

(** [m] is the smallest of the numbers [l]. *)
Definition isMinOf (m : number) (l : list number) : Prop :=
  m ∈ l ∧ ∀ a, a ∈ l → Number.le m a = true.

(** The distances a snapshot reports for the drone [s]. *)
Definition observed (s : string) (capture : Capture) : list number :=
  map distance (sightings s (distPerDrone (drone capture))).

(** The call of [checkNewViolations] gets to its last statement: the
    throttle is off, the feed answers with a capture of two or more drones,
    one of them inside the zone, and [fetchPilots] returns an array. *)
Definition runsToItsEnd (answer : DronesAnswer)
    (axiosGet : string → PilotAnswer) (m : V2.Monitor) : Prop :=
  V2.throttle m = false ∧
  ∃ capture,
    answer = DronesParsed capture ∧
    2 ≤ length (drone capture) ∧
    (∃ d, d ∈ drone capture ∧ withinRadius d) ∧
    fetchPilots axiosGet (V2.newSerialNumbers m capture) ≠ None.

(** * Properties *)

(** ** The report of the parser *)

Lemma parsedDrones_array capture ds :
  parsedDrones capture = DroneArray ds → ds = drone capture.
Proof.
  unfold parsedDrones. destruct (drone capture) as [|d0 [|d1 rest]]; try done.
  by intros [= <-].
Qed.

Lemma parsedDrones_array_length capture ds :
  parsedDrones capture = DroneArray ds → 2 ≤ length (drone capture).
Proof.
  unfold parsedDrones. destruct (drone capture) as [|d0 [|d1 rest]]; try done.
  intros _. simpl. lia.
Qed.

Lemma parsedDrones_several capture :
  2 ≤ length (drone capture) →
  parsedDrones capture = DroneArray (drone capture).
Proof.
  unfold parsedDrones. destruct (drone capture) as [|d0 [|d1 rest]]; simpl;
    [lia|lia|done].
Qed.


(** ** The order of numbers *)

Module NumberFacts.

Lemma SFcompare_refl x : SFcompare x x = None ∨ SFcompare x x = Some Eq.
Proof.
  destruct x as [[]| [] | |[] m e]; simpl; auto;
    rewrite Z.compare_refl, ?Pos.compare_cont_refl; auto.
Qed.

Lemma SFleb_refl x y : SFleb x y = true → SFleb x x = true.
Proof.
  unfold SFleb. destruct (SFcompare_refl x) as [H|H]; rewrite H; [|done].
  destruct x; try discriminate H. simpl. done.
Qed.

Lemma SFleb_refl_r x y : SFleb x y = true → SFleb y y = true.
Proof.
  unfold SFleb. destruct (SFcompare_refl y) as [H|H]; rewrite H; [|done].
  destruct y; try discriminate H. destruct x as [| | |[]]; simpl; done.
Qed.

Local Ltac cmp_cases :=
  repeat match goal with
  | |- context [(?a ?= ?b)%Z] =>
      let H := fresh in destruct (Z.compare_spec a b) as [H|H|H]
  | |- context [Pos.compare_cont Eq ?a ?b] =>
      change (Pos.compare_cont Eq a b) with (Pos.compare a b)
  | |- context [(?a ?= ?b)%positive] =>
      let H := fresh in destruct (Pos.compare_spec a b) as [H|H|H]
  end.

Lemma SFleb_trans x y z :
  SFleb x y = true → SFleb y z = true → SFleb x z = true.
Proof.
  unfold SFleb.
  destruct x as [[]|[]| |[] mx ex], y as [[]|[]| |[] my ey],
    z as [[]|[]| |[] mz ez]; simpl; try done;
    cmp_cases; simpl; try done; intros _ _; subst; lia.
Qed.

Lemma SFleb_total x y :
  SFleb x x = true → SFleb y y = true → SFleb x y = false →
  SFleb y x = true.
Proof.
  unfold SFleb.
  destruct x as [[]|[]| |[] mx ex], y as [[]|[]| |[] my ey];
    simpl; try done;
    cmp_cases; simpl; try done; intros _ _ _; subst; lia.
Qed.

Lemma le_refl_l a b : Number.le a b = true → Number.le a a = true.
Proof. unfold Number.le. rewrite !leb_spec. apply SFleb_refl. Qed.

Lemma le_refl_r a b : Number.le a b = true → Number.le b b = true.
Proof. unfold Number.le. rewrite !leb_spec. apply SFleb_refl_r. Qed.

Lemma le_trans a b c : Number.le a b = true → Number.le b c = true → Number.le a c = true.
Proof. unfold Number.le. rewrite !leb_spec. apply SFleb_trans. Qed.

Lemma le_total a b :
  Number.le a a = true → Number.le b b = true → Number.le a b = false → Number.le b a = true.
Proof. unfold Number.le. rewrite !leb_spec. apply SFleb_total. Qed.

End NumberFacts.

(** ** Arrays whose objects are updated in place *)

Section Keeps.
Context {A : Type} (R : relation A) `{!PreOrder R}.

Lemma keeps_refl (l : list A) : keeps R l l.
Proof. intros i x Hi. exists x. split; [done|reflexivity]. Qed.

Lemma keeps_trans (l1 l2 l3 : list A) :
  keeps R l1 l2 → keeps R l2 l3 → keeps R l1 l3.
Proof.
  intros H12 H23 i x Hi.
  destruct (H12 i x Hi) as (y & Hy & Rxy).
  destruct (H23 i y Hy) as (z & Hz & Ryz).
  exists z. split; [done|]. by transitivity y.
Qed.

Lemma keeps_alter (f : A → A) (i : nat) (l : list A) :
  (∀ x, R x (f x)) → keeps R l (alter f i l).
Proof.
  intros Hf j x Hj. destruct (decide (i = j)) as [->|Hne].
  - exists (f x). split; [|done]. by rewrite list_lookup_alter_eq, Hj.
  - exists x. split; [|reflexivity]. by rewrite list_lookup_alter_ne.
Qed.

Lemma keeps_app (l k : list A) : keeps R l (l ++ k).
Proof.
  intros i x Hi. exists x. split; [|reflexivity]. by apply lookup_app_l_Some.
Qed.

End Keeps.

(** ** The relations between a violation and its later states *)

#[local] Instance sameSerialNumber_preorder : PreOrder sameSerialNumber.
Proof.
  split; [by intros v|]. unfold sameSerialNumber.
  intros v1 v2 v3 H12 H23. congruence.
Qed.

#[local] Instance samePilot_preorder : PreOrder samePilot.
Proof.
  split; [by intros v|].
  intros v1 v2 v3 [Hs12 Hp12] [Hs23 Hp23]. split; congruence.
Qed.

Lemma isNaN_false (a : number) : Number.isNaN a = false ↔ Number.le a a = true.
Proof. unfold Number.isNaN. by destruct (Number.le a a). Qed.

#[local] Instance notFarther_preorder : PreOrder notFarther.
Proof.
  split.
  - intros v. split; [done|]. by rewrite isNaN_false.
  - intros v1 v2 v3 [Hs12 Hd12] [Hs23 Hd23]. split; [congruence|].
    intros Hnum. specialize (Hd12 Hnum).
    eapply NumberFacts.le_trans; [|exact Hd12].
    apply Hd23, isNaN_false. by eapply NumberFacts.le_refl_l.
Qed.

Lemma updateViolation_sameSerialNumber t d v :
  sameSerialNumber v (updateViolation t d v).
Proof. done. Qed.

Lemma updateViolation_samePilot t d v : samePilot v (updateViolation t d v).
Proof. done. Qed.

Lemma updateViolation_notFarther t d v : notFarther v (updateViolation t d v).
Proof.
  split; [done|]. rewrite isNaN_false. intros Hnum. simpl.
  by destruct (Number.le d (closestDistanceInMm v)) eqn:Hle.
Qed.

(** The minimum, once both distances are numbers. *)
Lemma updateViolation_min t d v :
  Number.isNaN (closestDistanceInMm v) = false →
  Number.isNaN d = false →
  isMin (closestDistanceInMm (updateViolation t d v))
        (closestDistanceInMm v) d.
Proof.
  rewrite !isNaN_false. intros Hc Hd. unfold isMin. simpl.
  destruct (Number.le d (closestDistanceInMm v)) eqn:Hle.
  - auto.
  - repeat split; auto. by apply NumberFacts.le_total.
Qed.

(** A NaN distance changes nothing but the capture time. *)
Lemma updateViolation_NaN t d v :
  Number.isNaN d = true →
  closestDistanceInMm (updateViolation t d v) = closestDistanceInMm v.
Proof.
  unfold Number.isNaN. intros Hd. simpl.
  destruct (Number.le d (closestDistanceInMm v)) eqn:Hle; [|done].
  apply NumberFacts.le_refl_l in Hle. by rewrite Hle in Hd.
Qed.

(** ** [updateViolations] and [addOrUpdateViolations] keep the objects *)

Section KeepsStore.
Context (R : relation NDZViolation) `{!PreOrder R}.
Context (R_update : ∀ t d v, R v (updateViolation t d v)).

Lemma updateViolations_keeps dists t vs :
  keeps R vs (V2.updateViolations dists t vs).
Proof.
  unfold V2.updateViolations.
  generalize (V2.fromEntries (imap (λ i v, (serialNumber v, i)) vs)).
  intros refs. revert vs.
  induction dists as [|dd dists IH]; intros vs; simpl; [apply keeps_refl, _|].
  eapply keeps_trans; [done| |apply IH].
  destruct (refs !! ddSerialNumber dd); [|apply keeps_refl, _].
  by apply keeps_alter.
Qed.

Lemma addOrUpdateViolations_keeps new vs :
  keeps R vs (V1.addOrUpdateViolations new vs).
Proof.
  unfold V1.addOrUpdateViolations. revert vs.
  induction new as [|violation new IH]; intros vs; simpl; [apply keeps_refl, _|].
  eapply keeps_trans; [done| |apply IH].
  destruct (list_find _ vs) as [[i ?]|]; [by apply keeps_alter|apply keeps_app, _].
Qed.

Lemma V2_checkNewViolations_keeps now answer axiosGet m :
  keeps R (V2.violations m)
        (V2.violations (V2.checkNewViolations now answer axiosGet m).1).
Proof.
  unfold V2.checkNewViolations.
  destruct (V2.throttle m); [apply keeps_refl, _|].
  destruct answer as [capture|[status|]|]; simpl;
    try destruct (status =? 429)%Z; simpl; try (apply keeps_refl, _).
  destruct (parsedDrones capture) as [|?|ds] eqn:Hparsed;
    [apply keeps_refl, _|apply keeps_refl, _|].
  apply parsedDrones_array in Hparsed as ->.
  destruct (length (drone capture) =? 0)%nat; [apply keeps_refl, _|].
  destruct (length (tooClose _) =? 0)%nat; [apply keeps_refl, _|].
  destruct (fetchPilots _ _); simpl; [|apply keeps_refl, _].
  eapply keeps_trans; [done|apply keeps_app, _|by apply updateViolations_keeps].
Qed.

Lemma V1_checkNewViolations_keeps now answer axiosGet m :
  keeps R (V1.violations m)
        (V1.violations (V1.checkNewViolations now answer axiosGet m).1).
Proof.
  unfold V1.checkNewViolations.
  destruct (V1.throttle m); [apply keeps_refl, _|].
  destruct answer as [capture|[status|]|]; simpl;
    try destruct (status =? 429)%Z; simpl; try (apply keeps_refl, _).
  destruct (parsedDrones capture) as [|?|ds] eqn:Hparsed;
    [apply keeps_refl, _|apply keeps_refl, _|].
  apply parsedDrones_array in Hparsed as ->.
  destruct (length (drone capture) =? 0)%nat; [apply keeps_refl, _|].
  destruct (length (tooClose _) =? 0)%nat; [apply keeps_refl, _|].
  simpl. by apply addOrUpdateViolations_keeps.
Qed.

Lemma V2_cycles_keeps cs m :
  keeps R (V2.violations m) (V2.violations (V2.cycles cs m)).
Proof.
  unfold V2.cycles. revert m.
  induction cs as [|[[now answer] axiosGet] cs IH]; intros m; simpl;
    [apply keeps_refl, _|].
  eapply keeps_trans; [done| |apply IH].
  unfold V2.call.
  apply (V2_checkNewViolations_keeps now answer axiosGet (V2.runTimeouts now m)).
Qed.

Lemma V1_cycles_keeps cs m :
  keeps R (V1.violations m) (V1.violations (V1.cycles cs m)).
Proof.
  unfold V1.cycles. revert m.
  induction cs as [|[[now answer] axiosGet] cs IH]; intros m; simpl;
    [apply keeps_refl, _|].
  eapply keeps_trans; [done| |apply IH].
  apply (V1_checkNewViolations_keeps now answer axiosGet (V1.runTimeouts now m)).
Qed.

End KeepsStore.

#[local] Instance updatedBy_preorder : PreOrder updatedBy.
Proof.
  split.
  - intros v. by exists [].
  - intros v1 v2 v3 [u12 ->] [u23 ->]. exists (u12 ++ u23).
    by rewrite fold_left_app.
Qed.

Lemma updateViolation_updatedBy t d v : updatedBy v (updateViolation t d v).
Proof. by exists [(t, d)]. Qed.

(** ** Pilots *)

(** C6: in both revisions, a stored violation stays at its index and keeps
    its serial number and its pilot (a [null] pilot too) through every
    sequence of later poll cycles.  The first revision asks for the pilots of
    all violating drones in every cycle, and still leaves the pilot of a
    stored violation as it is. *)
Theorem pilot_never_overwritten
    (cs1 : list V1.Cycle) (m1 : V1.Monitor) (i1 : nat) (v1 : NDZViolation)
    (cs2 : list V2.Cycle) (m2 : V2.Monitor) (i2 : nat) (v2 : NDZViolation) :
  V1.violations m1 !! i1 = Some v1 →
  V2.violations m2 !! i2 = Some v2 →
  (∃ v1', V1.violations (V1.cycles cs1 m1) !! i1 = Some v1' ∧
          serialNumber v1' = serialNumber v1 ∧ pilot v1' = pilot v1) ∧
  (∃ v2', V2.violations (V2.cycles cs2 m2) !! i2 = Some v2' ∧
          serialNumber v2' = serialNumber v2 ∧ pilot v2' = pilot v2).
Proof.
  intros Hv1 Hv2. split.
  - by apply (V1_cycles_keeps samePilot updateViolation_samePilot cs1 m1).
  - by apply (V2_cycles_keeps samePilot updateViolation_samePilot cs2 m2).
Qed.

Lemma pilot_never_overwritten_witness :
  let v := {| serialNumber := "D1"; closestDistanceInMm := 50000%float;
              pilot := Some (Sample.pilotOf "D1");
              latestCaptureDateAndTime := 1000 |} in
  let cs := [(3005%Z, DronesParsed Sample.d1d2Inside, Sample.somebodyElse);
             (5005%Z, DronesParsed Sample.d1d2Inside, Sample.d2NullBody)] in
  V1.violations Sample.trackedV1 !! 0%nat = Some v ∧
  V2.violations Sample.tracked !! 0%nat = Some v ∧
  (∃ v1', V1.violations (V1.cycles cs Sample.trackedV1) !! 0%nat = Some v1' ∧
          serialNumber v1' = "D1" ∧ pilot v1' = Some (Sample.pilotOf "D1")) ∧
  (∃ v2', V2.violations (V2.cycles cs Sample.tracked) !! 0%nat = Some v2' ∧
          serialNumber v2' = "D1" ∧ pilot v2' = Some (Sample.pilotOf "D1")).
Proof.
  intros v cs. split; [reflexivity|]. split; [reflexivity|].
  exact (pilot_never_overwritten cs Sample.trackedV1 0 v cs Sample.tracked 0 v
           eq_refl eq_refl).
Defined.

(** ** The lists a cycle computes *)

Lemma elem_of_tooClose (dd : DistAndDrone) (dists : list DistAndDrone) :
  dd ∈ tooClose dists ↔
  dd ∈ dists ∧ Number.le (distance dd) NDZRadiusInMm = true.
Proof. unfold tooClose. rewrite !list_elem_of_In. apply filter_In. Qed.

Lemma elem_of_distPerDrone (d : Drone) (droneCapture : list Drone) :
  d ∈ droneCapture →
  {| ddSerialNumber := droneSerialNumber d;
     distance := calcDistanceToNDZcenter d |} ∈ distPerDrone droneCapture.
Proof.
  intros Hd. unfold distPerDrone.
  by apply (list_elem_of_fmap_2
              (λ d, {| ddSerialNumber := droneSerialNumber d;
                       distance := calcDistanceToNDZcenter d |})).
Qed.

Lemma elem_of_tooCloseDistPerNewDrone dd vs dists :
  dd ∈ V2.tooCloseDistPerNewDrone vs dists ↔
  dd ∈ dists ∧ ddSerialNumber dd ∉ map serialNumber vs.
Proof.
  unfold V2.tooCloseDistPerNewDrone.
  rewrite list_elem_of_In, filter_In, <- list_elem_of_In.
  by rewrite negb_true_iff, bool_decide_eq_false.
Qed.

Lemma map_imap_ext {A B C} (g : B → C) (h : A → C) (f : nat → A → B) l :
  (∀ i x, g (f i x) = h x) → map g (imap f l) = map h l.
Proof.
  revert f. induction l as [|x l IH]; intros f Hf; simpl; [done|].
  rewrite Hf. f_equal. apply IH. intros i y. apply Hf.
Qed.

Lemma newViolations_serialNumbers capture newPilots dists :
  map serialNumber (V2.newViolations capture newPilots dists)
  = map ddSerialNumber dists.
Proof. by apply map_imap_ext. Qed.

Lemma keeps_elem_of {A} (R : relation A) (l l' : list A) (x : A) :
  keeps R l l' → x ∈ l → ∃ x', x' ∈ l' ∧ R x x'.
Proof.
  intros Hk [i Hi]%list_elem_of_lookup.
  destruct (Hk i x Hi) as (x' & Hx' & HR).
  exists x'. split; [|done]. apply list_elem_of_lookup. by exists i.
Qed.

(** ** Runs *)

Lemma run_cons now c calls m :
  V2.run ((now, c) :: calls) m
  = ((V2.run calls (V2.call now c m).1).1,
     (V2.call now c m).2 ++ (V2.run calls (V2.call now c m).1).2).
Proof.
  cbn [V2.run]. destruct (V2.call now c m) as [m1 r1]. cbn [fst snd].
  by destruct (V2.run calls m1) as [m2 r2].
Qed.

(** ** Stored distances are inside the zone *)

Lemma updateViolation_inZone t d v : inZone v → inZone (updateViolation t d v).
Proof.
  unfold inZone. simpl. intros Hv.
  destruct (Number.le d (closestDistanceInMm v)) eqn:Hle; [|done].
  by eapply NumberFacts.le_trans.
Qed.

Lemma inZone_number v : inZone v → Number.isNaN (closestDistanceInMm v) = false.
Proof. intros Hv. apply isNaN_false. by eapply NumberFacts.le_refl_l. Qed.

Lemma updateViolations_inZone dists t vs :
  Forall inZone vs → Forall inZone (V2.updateViolations dists t vs).
Proof.
  unfold V2.updateViolations.
  generalize (V2.fromEntries (imap (λ i v, (serialNumber v, i)) vs)).
  intros refs. revert vs.
  induction dists as [|dd dists IH]; intros vs Hvs; simpl; [done|].
  apply IH. destruct (refs !! ddSerialNumber dd); [|done].
  apply Forall_alter; [done|]. intros v _. apply updateViolation_inZone.
Qed.

Lemma Forall_imap_intro {A B} (P : B → Prop) (f : nat → A → B) (l : list A) :
  (∀ i x, x ∈ l → P (f i x)) → Forall P (imap f l).
Proof.
  revert f. induction l as [|x l IH]; intros f Hf; simpl; constructor.
  - apply Hf. left.
  - apply IH. intros i y Hy. apply Hf. by right.
Qed.

Lemma newViolations_inZone capture newPilots vs dists :
  Forall inZone
    (V2.newViolations capture newPilots
       (V2.tooCloseDistPerNewDrone vs (tooClose dists))).
Proof.
  apply Forall_imap_intro. intros i dd Hdd. unfold inZone. simpl.
  apply elem_of_tooCloseDistPerNewDrone in Hdd as [Hdd _].
  by apply elem_of_tooClose in Hdd as [_ Hle].
Qed.

Lemma removeTooOld_inZone now vs :
  Forall inZone vs → Forall inZone (removeTooOld now vs).
Proof.
  rewrite !Forall_forall. intros Hvs v Hv. apply Hvs.
  apply list_elem_of_In. apply list_elem_of_In in Hv.
  by apply filter_In in Hv as [Hv _].
Qed.

Lemma checkNewViolations_inZone now answer axiosGet m :
  Forall inZone (V2.violations m) →
  Forall inZone (V2.violations (V2.checkNewViolations now answer axiosGet m).1).
Proof.
  intros Hvs. unfold V2.checkNewViolations.
  destruct (V2.throttle m); [done|].
  destruct answer as [capture|[status|]|]; simpl;
    try destruct (status =? 429)%Z; simpl; try done.
  destruct (parsedDrones capture) as [|?|ds] eqn:Hparsed;
    [done|done|].
  apply parsedDrones_array in Hparsed as ->.
  destruct (length (drone capture) =? 0)%nat; [done|].
  destruct (length (tooClose _) =? 0)%nat; [done|].
  destruct (fetchPilots _ _); simpl; [|done].
  apply updateViolations_inZone, Forall_app. split; [done|].
  apply newViolations_inZone.
Qed.

Lemma call_inZone now c m :
  Forall inZone (V2.violations m) →
  Forall inZone (V2.violations (V2.call now c m).1).
Proof.
  intros Hvs. unfold V2.call. destruct c as [answer axiosGet|].
  - by apply checkNewViolations_inZone.
  - by apply removeTooOld_inZone.
Qed.

Lemma run_inZone calls m :
  Forall inZone (V2.violations m) →
  Forall inZone (V2.violations (V2.run calls m).1).
Proof.
  revert m. induction calls as [|[now c] calls IH]; intros m Hvs; [done|].
  rewrite run_cons. simpl. by apply IH, call_inZone.
Qed.

(** Whatever the monitor has been through, every closest distance it stores
    is a number not greater than the radius. *)
Lemma reachable_inZone m : V2.reachable m → Forall inZone (V2.violations m).
Proof. intros [calls <-]. apply run_inZone. constructor. Qed.

(** ** A state the monitor gets to *)

Lemma tracked_reachable : V2.reachable Sample.tracked.
Proof.
  by exists [(1001%Z, V2.CheckNewViolations (DronesParsed Sample.d1Inside)
                                          Sample.allFound)].
Qed.

(** ** New violations *)

(** What a cycle that gets to the end does to the state. *)
Lemma V2_checkNewViolations_completed now capture axiosGet m newPilots :
  V2.throttle m = false →
  2 ≤ length (drone capture) →
  tooClose (distPerDrone (drone capture)) ≠ [] →
  fetchPilots axiosGet (V2.newSerialNumbers m capture) = Some newPilots →
  (V2.checkNewViolations now (DronesParsed capture) axiosGet m).1
  = {| V2.violations :=
         V2.updateViolations (distPerDrone (drone capture))
           (snapshotTimestamp capture)
           (V2.violations m ++
            V2.newViolations capture newPilots
              (V2.tooCloseDistPerNewDrone (V2.violations m)
                 (tooClose (distPerDrone (drone capture)))));
       V2._lastUpdatedAt := Some now;
       V2.throttle := V2.throttle m;
       V2.timeouts := V2.timeouts m |}.
Proof.
  intros Hthrottle Hseveral Hclose Hpilots.
  unfold V2.checkNewViolations. rewrite Hthrottle. simpl.
  rewrite (parsedDrones_several capture Hseveral).
  destruct (length (drone capture) =? 0)%nat eqn:Hlen;
    [apply Nat.eqb_eq in Hlen; lia|].
  destruct (tooClose (distPerDrone (drone capture))) as [|dd0 dds] eqn:Htc;
    [done|].
  cbn [length Nat.eqb].
  unfold V2.newSerialNumbers in Hpilots. rewrite Htc in Hpilots.
  rewrite Hpilots. simpl. by rewrite Hthrottle.
Qed.

Lemma withinRadius_tooClose (droneCapture : list Drone) :
  (∃ d, d ∈ droneCapture ∧ withinRadius d) ↔
  tooClose (distPerDrone droneCapture) ≠ [].
Proof.
  split.
  - intros (d & Hd & Hin) Hnone.
    assert (Hdd : {| ddSerialNumber := droneSerialNumber d;
                     distance := calcDistanceToNDZcenter d |}
                  ∈ tooClose (distPerDrone droneCapture)).
    { apply elem_of_tooClose. split; [by apply elem_of_distPerDrone|done]. }
    rewrite Hnone in Hdd. by apply elem_of_nil in Hdd.
  - destruct (tooClose (distPerDrone droneCapture)) as [|dd dds] eqn:Hclose;
      [done|]. intros _.
    assert (Hdd : dd ∈ tooClose (distPerDrone droneCapture))
      by (rewrite Hclose; left).
    apply elem_of_tooClose in Hdd as [Hdd Hle].
    apply (list_elem_of_fmap_1 _) in Hdd as (d & -> & Hd). by exists d.
Qed.

Lemma runsToItsEnd_completed now capture axiosGet m :
  runsToItsEnd (DronesParsed capture) axiosGet m →
  ∃ newPilots,
    fetchPilots axiosGet (V2.newSerialNumbers m capture) = Some newPilots ∧
    (V2.checkNewViolations now (DronesParsed capture) axiosGet m).1
    = {| V2.violations :=
           V2.updateViolations (distPerDrone (drone capture))
             (snapshotTimestamp capture)
             (V2.violations m ++
              V2.newViolations capture newPilots
                (V2.tooCloseDistPerNewDrone (V2.violations m)
                   (tooClose (distPerDrone (drone capture)))));
         V2._lastUpdatedAt := Some now;
         V2.throttle := V2.throttle m;
         V2.timeouts := V2.timeouts m |}.
Proof.
  intros (Hthrottle & capture' & [= <-] & Hseveral & Hinside & Hpilots).
  destruct (fetchPilots axiosGet (V2.newSerialNumbers m capture))
    as [newPilots|] eqn:Hsome; [|done].
  exists newPilots. split; [done|].
  apply V2_checkNewViolations_completed; try done.
  by apply withinRadius_tooClose.
Qed.

(** C3 fails.  The snapshot lists one drone, "D1", at the centre of the
    zone, and every request is answered.  The parser gives the object of the
    drone, not an array holding it, so [droneCapture.length] is [undefined]
    and the cycle ends at [if (!droneCapture.length) return;]: nothing is
    stored and no pilot is asked for, in either revision.  With a second
    drone in the snapshot, far outside the zone, "D1" is stored. *)
Theorem lone_violator_is_not_stored :
  let answer := DronesParsed Sample.d1Alone in
  map (λ d, (droneSerialNumber d,
             Number.le (calcDistanceToNDZcenter d) NDZRadiusInMm))
      (drone Sample.d1Alone)
  = [("D1", true)] ∧
  V2.checkNewViolations 3005 answer Sample.allFound V2.initial
  = (V2.initial, [GetDrones]) ∧
  V1.checkNewViolations 3005 answer Sample.allFound V1.initial
  = (V1.initial, [GetDrones]) ∧
  map (λ d, (droneSerialNumber d,
             Number.le (calcDistanceToNDZcenter d) NDZRadiusInMm))
      (drone Sample.d1AtCentre)
  = [("D1", true); ("D3", false)] ∧
  map serialNumber
    (V2.violations
       (V2.checkNewViolations 3005 (DronesParsed Sample.d1AtCentre)
          Sample.allFound V2.initial).1)
  = ["D1"].
Proof. repeat split. Qed.

(** X27: after a poll cycle that processes a snapshot of two or more drones
    to the end (the feed answered with the snapshot and the pilot batch
    returned an array), every drone of the snapshot within 100 000 mm of
    (250000, 250000) has a violation with its serial number in the store. *)
Theorem violators_are_stored
    (now : Z) (capture : Capture) (axiosGet : string → PilotAnswer)
    (m : V2.Monitor) (newPilots : list (option PilotInfo)) (d : Drone) :
  V2.throttle m = false →
  2 ≤ length (drone capture) →
  fetchPilots axiosGet (V2.newSerialNumbers m capture) = Some newPilots →
  d ∈ drone capture →
  withinRadius d →
  ∃ v, v ∈ V2.violations
             (V2.checkNewViolations now (DronesParsed capture) axiosGet m).1 ∧
       serialNumber v = droneSerialNumber d.
Proof.
  intros Hthrottle Hseveral Hpilots Hd Hin.
  set (dd := {| ddSerialNumber := droneSerialNumber d;
                distance := calcDistanceToNDZcenter d |}).
  assert (Hdd : dd ∈ tooClose (distPerDrone (drone capture))).
  { apply elem_of_tooClose. split; [by apply elem_of_distPerDrone|done]. }
  rewrite (V2_checkNewViolations_completed _ _ _ _ newPilots); try done;
    [|by intros Hnil; rewrite Hnil in Hdd; inversion Hdd].
  simpl.
  set (new := V2.tooCloseDistPerNewDrone _ _).
  assert (Hold : ∃ v, v ∈ V2.violations m ++ V2.newViolations capture newPilots new
                      ∧ serialNumber v = droneSerialNumber d).
  { destruct (decide (droneSerialNumber d ∈ map serialNumber (V2.violations m)))
      as [Hknown|Hnew].
    - apply (list_elem_of_fmap_1 serialNumber) in Hknown as (v & Hv & Hvin).
      exists v. split; [|done]. apply elem_of_app. by left.
    - assert (Hs : droneSerialNumber d
                   ∈ map serialNumber (V2.newViolations capture newPilots new)).
      { rewrite newViolations_serialNumbers.
        apply (list_elem_of_fmap_2 ddSerialNumber _ dd).
        by apply elem_of_tooCloseDistPerNewDrone. }
      apply (list_elem_of_fmap_1 serialNumber) in Hs as (v & Hv & Hvin).
      exists v. split; [|done]. apply elem_of_app. by right. }
  destruct Hold as (v & Hv & Hs).
  destruct (keeps_elem_of sameSerialNumber _ _ v
              (updateViolations_keeps sameSerialNumber
                 updateViolation_sameSerialNumber
                 (distPerDrone (drone capture)) (snapshotTimestamp capture) _)
              Hv) as (v' & Hv' & Hs').
  exists v'. split; [done|]. unfold sameSerialNumber in Hs'. congruence.
Qed.

Lemma violators_are_stored_witness :
  let d := Sample.droneAt "D2" 250000%float 250000%float in
  V2.throttle Sample.tracked = false ∧
  2 ≤ length (drone Sample.d1d2Inside) ∧
  fetchPilots Sample.d2Rejected
    (V2.newSerialNumbers Sample.tracked Sample.d1d2Inside) = Some [None] ∧
  d ∈ drone Sample.d1d2Inside ∧
  withinRadius d ∧
  ∃ v, v ∈ V2.violations
             (V2.checkNewViolations 3005 (DronesParsed Sample.d1d2Inside)
                Sample.d2Rejected Sample.tracked).1 ∧
       serialNumber v = "D2".
Proof.
  intros d.
  assert (Hd : d ∈ drone Sample.d1d2Inside) by (right; left).
  assert (Hseveral : 2 ≤ length (drone Sample.d1d2Inside)) by (simpl; lia).
  split; [reflexivity|]. split; [exact Hseveral|]. split; [reflexivity|].
  split; [exact Hd|]. split; [reflexivity|].
  exact (violators_are_stored 3005 Sample.d1d2Inside Sample.d2Rejected
           Sample.tracked [None] d eq_refl Hseveral eq_refl Hd eq_refl).
Defined.

(** ** A pilot batch that fails as a whole *)

(** C8: when [fetchPilots] returns [null] for the batch of the cycle, the
    cycle leaves the monitor as it was: no violation is added, no stored
    distance or capture time is changed, [lastUpdatedAt] stays. *)
Theorem pilot_batch_failure_changes_nothing
    (now : Z) (capture : Capture) (axiosGet : string → PilotAnswer)
    (m : V2.Monitor) :
  fetchPilots axiosGet (V2.newSerialNumbers m capture) = None →
  (V2.checkNewViolations now (DronesParsed capture) axiosGet m).1 = m.
Proof.
  intros Hpilots. unfold V2.checkNewViolations.
  destruct (V2.throttle m); [done|]. simpl.
  destruct (parsedDrones capture) as [|?|ds] eqn:Hparsed;
    [done|done|].
  apply parsedDrones_array in Hparsed as ->.
  destruct (length (drone capture) =? 0)%nat; [done|].
  destruct (length (tooClose _) =? 0)%nat; [done|].
  unfold V2.newSerialNumbers in Hpilots. by rewrite Hpilots.
Qed.

Lemma pilot_batch_failure_witness :
  fetchPilots Sample.d2NullBody
    (V2.newSerialNumbers Sample.tracked Sample.d1d2Inside) = None ∧
  (V2.checkNewViolations 3005 (DronesParsed Sample.d1d2Inside)
     Sample.d2NullBody Sample.tracked).1 = Sample.tracked.
Proof.
  split; [reflexivity|].
  exact (pilot_batch_failure_changes_nothing 3005 Sample.d1d2Inside
           Sample.d2NullBody Sample.tracked eq_refl).
Defined.

(** ** An empty snapshot *)

(** C2, as the claim states it, fails: the feed answers with a snapshot
    that lists no drone at time 3005, and [lastUpdatedAt] is still the 1001
    of the last completed cycle. *)
Lemma empty_snapshot_does_not_advance_lastUpdatedAt :
  let r := V2.checkNewViolations 3005 (DronesParsed Sample.noDrones)
             Sample.allFound Sample.tracked in
  r.2 = [GetDrones] ∧
  V2.lastUpdatedAt r.1 = Some 1001%Z ∧
  V2.lastUpdatedAt r.1 ≠ Some 3005%Z.
Proof. repeat split. discriminate. Qed.

(** C2, amended: a poll cycle whose fetch succeeds with an empty drone list
    leaves the whole monitor as it was, the violations and [lastUpdatedAt]
    alike; the one request it issued is the one for the feed. *)
Theorem empty_snapshot_changes_nothing
    (now : Z) (capture : Capture) (axiosGet : string → PilotAnswer)
    (m : V2.Monitor) :
  V2.throttle m = false →
  drone capture = [] →
  V2.checkNewViolations now (DronesParsed capture) axiosGet m
  = (m, [GetDrones]) ∧
  V2.lastUpdatedAt
    (V2.checkNewViolations now (DronesParsed capture) axiosGet m).1
  = V2.lastUpdatedAt m.
Proof.
  intros Hthrottle Hempty. unfold V2.checkNewViolations.
  rewrite Hthrottle. simpl. unfold parsedDrones. by rewrite Hempty.
Qed.

Lemma empty_snapshot_witness :
  V2.throttle Sample.tracked = false ∧
  drone Sample.noDrones = [] ∧
  V2.checkNewViolations 3005 (DronesParsed Sample.noDrones) Sample.allFound
    Sample.tracked = (Sample.tracked, [GetDrones]).
Proof.
  split; [reflexivity|]. split; [reflexivity|].
  exact (proj1 (empty_snapshot_changes_nothing 3005 Sample.noDrones
                  Sample.allFound Sample.tracked eq_refl eq_refl)).
Defined.

(** ** Eviction *)

Lemma keepViolation_spec now v :
  keepViolation now v
  = negb (latestCaptureDateAndTime v <? now - tenMinutes)%Z.
Proof.
  unfold keepViolation, tenMinutes, minToStoreViolationFor.
  destruct (Z.leb_spec (now - latestCaptureDateAndTime v) (10 * 60 * 1000));
    destruct (Z.ltb_spec (latestCaptureDateAndTime v) (now - 10 * 60 * 1000));
    simpl; lia.
Qed.

(** C7: [removeTooOldViolations] removes exactly the violations whose
    capture time is strictly older than now minus ten minutes and touches
    nothing else: one seen 10 min 1 s ago goes, one seen 9 min 59 s ago
    stays, and so does one seen exactly 10 min ago. *)
Theorem eviction_is_strict_ten_minutes :
  (∀ now m,
     V2.violations (V2.removeTooOldViolations now m)
     = evictOlderThan now tenMinutes (V2.violations m) ∧
     V2.lastUpdatedAt (V2.removeTooOldViolations now m) = V2.lastUpdatedAt m ∧
     V2.throttle (V2.removeTooOldViolations now m) = V2.throttle m) ∧
  (∀ now m v,
     v ∈ V2.violations (V2.removeTooOldViolations now m) ↔
     v ∈ V2.violations m ∧
     ¬ (latestCaptureDateAndTime v < now - tenMinutes)%Z) ∧
  (∀ now v,
     keepViolation now v = false ↔
     (latestCaptureDateAndTime v < now - tenMinutes)%Z) ∧
  (∀ now s c p,
     let seen ago := {| serialNumber := s; closestDistanceInMm := c;
                        pilot := p; latestCaptureDateAndTime := now - ago |} in
     removeTooOld now [seen (10 * 60 * 1000 + 1000)%Z] = [] ∧
     removeTooOld now [seen (9 * 60 * 1000 + 59 * 1000)%Z]
     = [seen (9 * 60 * 1000 + 59 * 1000)%Z] ∧
     removeTooOld now [seen (10 * 60 * 1000)%Z] = [seen (10 * 60 * 1000)%Z]).
Proof.
  assert (Hfilter : ∀ now vs,
             removeTooOld now vs = evictOlderThan now tenMinutes vs).
  { intros now vs. unfold removeTooOld, evictOlderThan.
    apply filter_ext. intros v. apply keepViolation_spec. }
  split; [|split; [|split]].
  - intros now m. simpl. by rewrite Hfilter.
  - intros now m v. simpl. rewrite Hfilter. unfold evictOlderThan.
    rewrite !list_elem_of_In, filter_In, negb_true_iff, Z.ltb_ge.
    intuition lia.
  - intros now v. rewrite keepViolation_spec, negb_false_iff. apply Z.ltb_lt.
  - intros now s c p seen. unfold removeTooOld, seen. simpl.
    rewrite !keepViolation_spec. unfold tenMinutes. simpl latestCaptureDateAndTime.
    repeat split.
    + destruct (Z.ltb_spec (now - (10 * 60 * 1000 + 1000)) (now - 10 * 60 * 1000));
        [done|lia].
    + destruct (Z.ltb_spec (now - (9 * 60 * 1000 + 59 * 1000)) (now - 10 * 60 * 1000));
        [lia|done].
    + destruct (Z.ltb_spec (now - 10 * 60 * 1000) (now - 10 * 60 * 1000));
        [lia|done].
Qed.

(** ** Pilot lookups *)

Lemma pilotOfResult_resolved (answer : PilotAnswer) :
  answer ≠ PilotFulfilled 200 None →
  pilotOfResult answer = Some (resolvedPilot answer).
Proof.
  intros Hbody. destruct answer as [status [p|]|]; simpl; try done.
  - destruct (status =? 200)%Z; [|done]. by destruct p.
  - destruct (Z.eqb_spec status 200) as [->|]; [done|done].
Qed.

Lemma pilotOfResult_throws (answer : PilotAnswer) :
  pilotOfResult answer = None ↔ answer = PilotFulfilled 200 None.
Proof.
  split; [|by intros ->].
  destruct answer as [status [p|]|]; simpl; try done.
  - by destruct (status =? 200)%Z.
  - destruct (Z.eqb_spec status 200) as [->|]; done.
Qed.

(** X6: the batch as a whole fails exactly when one of its requests is
    answered with status 200 and a [null] (or [undefined]) body. *)
Lemma fetchPilots_null (axiosGet : string → PilotAnswer) (serials : list string) :
  fetchPilots axiosGet serials = None ↔
  ∃ s, s ∈ serials ∧ axiosGet s = PilotFulfilled 200 None.
Proof.
  unfold fetchPilots. rewrite mapM_None, Exists_exists. split.
  - intros (answer & Hin & Hthrow).
    apply (list_elem_of_fmap_1 axiosGet) in Hin as (s & -> & Hs).
    exists s. split; [done|]. by apply pilotOfResult_throws.
  - intros (s & Hs & Hnull). exists (axiosGet s). split.
    + by apply (list_elem_of_fmap_2 axiosGet).
    + by apply pilotOfResult_throws.
Qed.

(** C9 fails: the request for "D2" is answered with status 200 and a
    [null] body, and the batch of three returns [null] instead of a
    three-element array, although the lookups of "D1" and "D3" succeed on
    their own.  The callback of [results.map] destructures [response.data]
    without a test, inside the [try] block of the whole batch. *)
Lemma fetchPilots_null_body_aborts_batch :
  fetchPilots Sample.d2NullBody ["D1"; "D2"; "D3"] = None ∧
  Sample.d2NullBody "D2" = PilotFulfilled 200 None ∧
  fetchPilots Sample.d2NullBody ["D1"] = Some [Some (Sample.pilotOf "D1")] ∧
  fetchPilots Sample.d2NullBody ["D3"] = Some [Some (Sample.pilotOf "D3")].
Proof. repeat split. Qed.

(** X26: for a batch in which no request is answered with status 200 and a
    [null] body, [fetchPilots] returns an array as long as its input, in the
    order of the input; each position holds the pilot of its own lookup when
    that was fulfilled with status 200, and [null] when it was rejected or
    has another status.  Positions do not depend on each other, and a
    rejected or non-200 lookup does not end the batch. *)
Theorem fetchPilots_positionwise
    (axiosGet : string → PilotAnswer) (serials : list string) :
  (∀ s, s ∈ serials → axiosGet s ≠ PilotFulfilled 200 None) →
  ∃ pilots,
    fetchPilots axiosGet serials = Some pilots ∧
    length pilots = length serials ∧
    ∀ i s, serials !! i = Some s →
           pilots !! i = Some (resolvedPilot (axiosGet s)).
Proof.
  intros Hbodies.
  exists (map (λ s, resolvedPilot (axiosGet s)) serials).
  split; [|split].
  - unfold fetchPilots. apply mapM_Some.
    induction serials as [|s serials IH]; simpl; constructor.
    + apply pilotOfResult_resolved, Hbodies. left.
    + apply IH. intros s' Hs'. apply Hbodies. by right.
  - by rewrite length_map.
  - intros i s Hi.
    change (map (λ s, resolvedPilot (axiosGet s)) serials)
      with ((λ s, resolvedPilot (axiosGet s)) <$> serials).
    by rewrite list_lookup_fmap, Hi.
Qed.

Lemma d2Rejected_has_body (s : string) :
  Sample.d2Rejected s ≠ PilotFulfilled 200 None.
Proof. unfold Sample.d2Rejected. by case_bool_decide. Qed.

Lemma fetchPilots_positionwise_witness :
  (∀ s, s ∈ ["D1"; "D2"; "D3"] →
        Sample.d2Rejected s ≠ PilotFulfilled 200 None) ∧
  ∃ pilots,
    fetchPilots Sample.d2Rejected ["D1"; "D2"; "D3"] = Some pilots ∧
    length pilots = 3%nat ∧
    ∀ i s, ["D1"; "D2"; "D3"] !! i = Some s →
           pilots !! i = Some (resolvedPilot (Sample.d2Rejected s)).
Proof.
  split; [intros s _; apply d2Rejected_has_body|].
  exact (fetchPilots_positionwise Sample.d2Rejected ["D1"; "D2"; "D3"]
           (λ s _, d2Rejected_has_body s)).
Defined.

(** ** Capture times of drones outside the zone *)

(** C1 fails on the second revision.  "D1" is stored with capture time
    1000; the snapshot of time 3000 reports it outside the zone and "D2"
    inside.  The cycle gives [updateViolations] the distances of all
    drones, so the capture time of "D1" becomes 3000.  The first revision,
    which passes the violating drones only, leaves it at 1000. *)
Theorem capture_time_refreshed_outside_zone :
  let answer := DronesParsed Sample.d1OutsideD2Inside in
  map (λ d, (droneSerialNumber d,
             Number.le (calcDistanceToNDZcenter d) NDZRadiusInMm))
      (drone Sample.d1OutsideD2Inside)
  = [("D1", false); ("D2", true)] ∧
  Sample.captureTimes (V2.violations Sample.tracked) = [("D1", 1000%Z)] ∧
  Sample.captureTimes
    (V2.violations
       (V2.checkNewViolations 3005 answer Sample.allFound Sample.tracked).1)
  = [("D1", 3000%Z); ("D2", 3000%Z)] ∧
  Sample.captureTimes
    (V1.violations
       (V1.checkNewViolations 3005 answer Sample.allFound Sample.trackedV1).1)
  = [("D1", 1000%Z); ("D2", 3000%Z)].
Proof. repeat split. Qed.

(** ** One violation per drone *)

(** C5 fails on the second revision.  The store is empty and one snapshot
    lists "D1" twice inside the zone: both entries are new, both are pushed,
    and the store holds two violations of "D1".  The first revision looks
    each violation up in the store before it pushes, and stores one. *)
Theorem duplicate_in_snapshot_stored_twice :
  let answer := DronesParsed Sample.d1Twice in
  map droneSerialNumber (drone Sample.d1Twice) = ["D1"; "D1"] ∧
  map serialNumber
    (V2.violations
       (V2.checkNewViolations 3005 answer Sample.allFound V2.initial).1)
  = ["D1"; "D1"] ∧
  map serialNumber
    (V1.violations
       (V1.checkNewViolations 3005 answer Sample.allFound V1.initial).1)
  = ["D1"].
Proof. repeat split. Qed.

(** ** The throttle *)

Lemma runTimeouts_throttleTimed now m :
  throttleTimed m → throttleTimed (V2.runTimeouts now m).
Proof.
  unfold throttleTimed, V2.runTimeouts, dueTimeouts, pendingTimeouts.
  intros [[Hoff Hnone]|[Hon [due Hone]]]; simpl.
  - rewrite Hnone. simpl. by left.
  - rewrite Hone. simpl. destruct (due <=? now)%Z; simpl; eauto.
Qed.

Lemma checkNewViolations_throttleTimed now answer axiosGet m :
  throttleTimed m →
  throttleTimed (V2.checkNewViolations now answer axiosGet m).1.
Proof.
  intros Hinv. unfold V2.checkNewViolations.
  destruct (V2.throttle m) eqn:Hthrottle; [done|].
  destruct Hinv as [[_ Hnone]|[Hon _]]; [|congruence].
  destruct answer as [capture|[status|]|]; simpl;
    try (left; by split).
  - destruct (parsedDrones capture) as [|?|ds] eqn:Hparsed;
      [left; by split|left; by split|].
    apply parsedDrones_array in Hparsed as ->.
    destruct (length (drone capture) =? 0)%nat; [left; by split|].
    destruct (length (tooClose _) =? 0)%nat; [left; by split|].
    destruct (fetchPilots _ _); simpl; left; by split.
  - destruct (status =? 429)%Z; simpl; [|left; by split].
    right. split; [done|]. rewrite Hnone. by eexists.
Qed.

Lemma call_throttleTimed now c m :
  throttleTimed m → throttleTimed (V2.call now c m).1.
Proof.
  intros Hinv%(runTimeouts_throttleTimed now). unfold V2.call.
  destruct c as [answer axiosGet|]; [by apply checkNewViolations_throttleTimed|].
  done.
Qed.


Lemma run_throttleTimed calls m :
  throttleTimed m → throttleTimed (V2.run calls m).1.
Proof.
  revert m. induction calls as [|[now c] calls IH]; intros m Hinv; [done|].
  rewrite run_cons. simpl. by apply IH, call_throttleTimed.
Qed.

Lemma reachable_throttleTimed m : V2.reachable m → throttleTimed m.
Proof.
  intros [calls <-]. apply run_throttleTimed. left. by split.
Qed.

(** An unthrottled [checkNewViolations] starts with the request for the
    feed. *)
Lemma checkNewViolations_fetches now answer axiosGet m :
  V2.throttle m = false →
  ∃ more, (V2.checkNewViolations now answer axiosGet m).2 = GetDrones :: more.
Proof.
  intros Hthrottle. unfold V2.checkNewViolations. rewrite Hthrottle.
  destruct answer as [capture|[status|]|]; simpl; eauto.
  - destruct (parsedDrones capture) as [|?|ds] eqn:Hparsed;
      [eauto|eauto|].
    apply parsedDrones_array in Hparsed as ->.
    destruct (length (drone capture) =? 0)%nat; [eauto|].
    destruct (length (tooClose _) =? 0)%nat; [eauto|].
    destruct (fetchPilots _ _); simpl; eauto.
  - destruct (status =? 429)%Z; simpl; eauto.
Qed.

Lemma runTimeouts_cooling t0 t m :
  (t < t0 + 6000)%Z → cooling t0 m → V2.runTimeouts t m = m.
Proof.
  intros Ht [Hon Hone]. destruct m as [vs last th ts]. simpl in *. subst.
  unfold V2.runTimeouts, dueTimeouts, pendingTimeouts. simpl.
  destruct (Z.leb_spec (t0 + 6000) t); [lia|done].
Qed.

(** While the cooldown lasts, a call of [checkNewViolations] returns at
    once, and a call of [removeTooOldViolations] leaves the throttle alone. *)
Lemma call_cooling t0 t c m :
  (t < t0 + 6000)%Z → cooling t0 m →
  cooling t0 (V2.call t c m).1 ∧ (V2.call t c m).2 = [] ∧
  (∀ answer axiosGet, c = V2.CheckNewViolations answer axiosGet →
                      (V2.call t c m).1 = m).
Proof.
  intros Ht Hcool. unfold V2.call.
  rewrite (runTimeouts_cooling t0 t m Ht Hcool).
  destruct Hcool as [Hon Hone].
  destruct c as [answer axiosGet|].
  - unfold V2.checkNewViolations. rewrite Hon. simpl. by repeat split.
  - simpl. by repeat split.
Qed.

Lemma run_cooling t0 calls m :
  Forall (λ tc, (tc.1 < t0 + 6000)%Z) calls → cooling t0 m →
  cooling t0 (V2.run calls m).1 ∧ (V2.run calls m).2 = [].
Proof.
  revert m. induction calls as [|[t c] calls IH]; intros m Hwin Hcool; [done|].
  apply Forall_cons in Hwin as [Ht Hwin]. simpl in Ht.
  destruct (call_cooling t0 t c m Ht Hcool) as (Hcool' & Hreq & _).
  rewrite run_cons. simpl. rewrite Hreq. simpl. by apply IH.
Qed.

Lemma runTimeouts_after_cooldown t0 t m :
  (t0 + 6000 ≤ t)%Z → cooling t0 m →
  V2.throttle (V2.runTimeouts t m) = false ∧
  V2.timeouts (V2.runTimeouts t m) = [].
Proof.
  intros Ht [Hon Hone]. unfold V2.runTimeouts, dueTimeouts, pendingTimeouts.
  simpl. rewrite Hone. simpl.
  by destruct (Z.leb_spec (t0 + 6000) t); [|lia].
Qed.

(** C10: the feed answers a request made at [t0] with status 429.  The
    request was made, so the monitor was not throttled; it is now, with one
    callback due at [t0 + 6000].  Whatever is called at times in
    [t0, t0 + 6000) issues no request, and each call of
    [checkNewViolations] in that window returns the monitor as it found it.
    From [t0 + 6000] on the callback has run, the throttle is off, no callback
    is pending, and [checkNewViolations] asks the feed again. *)
Theorem rate_limit_cooldown
    (t0 : Z) (axiosGet : string → PilotAnswer) (m : V2.Monitor)
    (calls : list (Z * V2.Call)) :
  V2.reachable m →
  V2.throttle (V2.runTimeouts t0 m) = false →
  Forall (λ tc, (t0 ≤ tc.1 < t0 + 6000)%Z) calls →
  let limited :=
    V2.call t0 (V2.CheckNewViolations (DronesAxiosError (Some 429%Z)) axiosGet)
            m in
  let during := V2.run calls limited.1 in
  limited.2 = [GetDrones] ∧
  V2.violations limited.1 = V2.violations m ∧
  cooling t0 limited.1 ∧
  during.2 = [] ∧
  cooling t0 during.1 ∧
  (∀ t answer axiosGet',
     (t0 ≤ t < t0 + 6000)%Z →
     V2.call t (V2.CheckNewViolations answer axiosGet') during.1
     = (during.1, [])) ∧
  (∀ t answer axiosGet',
     (t0 + 6000 ≤ t)%Z →
     V2.throttle (V2.runTimeouts t during.1) = false ∧
     V2.timeouts (V2.runTimeouts t during.1) = [] ∧
     ∃ more,
       (V2.call t (V2.CheckNewViolations answer axiosGet') during.1).2
       = GetDrones :: more).
Proof.
  intros Hreach Hoff Hwin limited during.
  assert (Hnone : V2.timeouts (V2.runTimeouts t0 m) = []).
  { destruct (runTimeouts_throttleTimed t0 m (reachable_throttleTimed m Hreach))
      as [[_ Hnone]|[Hon _]]; [done|congruence]. }
  assert (Hlimited :
    limited = ({| V2.violations := V2.violations m;
                  V2._lastUpdatedAt := V2._lastUpdatedAt m;
                  V2.throttle := true;
                  V2.timeouts := [(t0 + 6000)%Z] |}, [GetDrones])).
  { unfold limited, V2.call.
    assert (Hvs : V2.violations (V2.runTimeouts t0 m) = V2.violations m)
      by done.
    assert (Hlast : V2._lastUpdatedAt (V2.runTimeouts t0 m)
                    = V2._lastUpdatedAt m) by done.
    destruct (V2.runTimeouts t0 m) as [vs last th ts]. simpl in *.
    by subst. }
  assert (Hcool : cooling t0 limited.1) by (by rewrite Hlimited).
  assert (Hwin' : Forall (λ tc : Z * V2.Call, (tc.1 < t0 + 6000)%Z) calls).
  { eapply Forall_impl; [exact Hwin|]. simpl. lia. }
  destruct (run_cooling t0 calls limited.1 Hwin' Hcool) as [Hcool' Hquiet].
  fold during in Hcool', Hquiet.
  repeat split; try done; try (by rewrite Hlimited).
  - apply Hcool'.
  - apply Hcool'.
  - intros t answer axiosGet' [_ Ht].
    destruct (call_cooling t0 t (V2.CheckNewViolations answer axiosGet')
                during.1 Ht Hcool') as (_ & Hreq & Hsame).
    specialize (Hsame answer axiosGet' eq_refl).
    destruct (V2.call t _ during.1) as [m' r']. simpl in *. congruence.
  - by apply (runTimeouts_after_cooldown t0).
  - by apply (runTimeouts_after_cooldown t0).
  - unfold V2.call. apply checkNewViolations_fetches.
    by apply (runTimeouts_after_cooldown t0).
Qed.

Lemma rate_limit_cooldown_witness :
  let calls :=
    V2.intervalCallback 2000 (DronesParsed Sample.d1d2Inside) Sample.allFound
    ++ V2.intervalCallback 4000 (DronesParsed Sample.d1d2Inside)
         Sample.allFound in
  let limited :=
    V2.call 0 (V2.CheckNewViolations (DronesAxiosError (Some 429%Z))
                                     Sample.allFound) V2.initial in
  V2.reachable V2.initial ∧
  V2.throttle (V2.runTimeouts 0 V2.initial) = false ∧
  Forall (λ tc, (0 ≤ tc.1 < 0 + 6000)%Z) calls ∧
  (V2.run calls limited.1).2 = [] ∧
  ∃ more,
    (V2.call 6000 (V2.CheckNewViolations (DronesParsed Sample.d1d2Inside)
                                         Sample.allFound)
             (V2.run calls limited.1).1).2 = GetDrones :: more.
Proof.
  intros calls limited.
  assert (Hreach : V2.reachable V2.initial) by (by exists []).
  assert (Hwin : Forall (λ tc : Z * V2.Call, (0 ≤ tc.1 < 0 + 6000)%Z) calls).
  { unfold calls. repeat (apply Forall_cons; split); [..|apply Forall_nil];
      simpl; lia. }
  destruct (rate_limit_cooldown 0 Sample.allFound V2.initial calls
              Hreach eq_refl Hwin) as (_ & _ & _ & Hquiet & _ & _ & Hafter).
  split; [exact Hreach|]. split; [reflexivity|]. split; [exact Hwin|].
  split; [exact Hquiet|].
  destruct (Hafter 6000%Z (DronesParsed Sample.d1d2Inside) Sample.allFound)
    as (_ & _ & Hmore); [lia|]. exact Hmore.
Defined.

(** ** One violation per drone, where it holds *)

Lemma alter_serialNumbers t d i vs :
  map serialNumber (alter (updateViolation t d) i vs) = map serialNumber vs.
Proof.
  change (serialNumber <$> alter (updateViolation t d) i vs
          = serialNumber <$> vs).
  rewrite (list_fmap_alter serialNumber (updateViolation t d) id).
  - by apply list_alter_id.
  - by apply Forall_forall.
Qed.

Lemma updateViolations_serialNumbers dists t vs :
  map serialNumber (V2.updateViolations dists t vs) = map serialNumber vs.
Proof.
  unfold V2.updateViolations.
  generalize (V2.fromEntries (imap (λ i v, (serialNumber v, i)) vs)).
  intros refs. revert vs.
  induction dists as [|dd dists IH]; intros vs; simpl; [done|].
  rewrite IH. destruct (refs !! ddSerialNumber dd); [|done].
  apply alter_serialNumbers.
Qed.

Lemma NoDup_map_filter {A B} (f : A → B) (p : A → bool) (l : list A) :
  NoDup (map f l) → NoDup (map f (List.filter p l)).
Proof.
  induction l as [|x l IH]; simpl; [done|].
  rewrite NoDup_cons. intros [Hx Hl]. destruct (p x); simpl; [|by apply IH].
  apply NoDup_cons. split; [|by apply IH].
  intros Hin. apply Hx.
  apply (list_elem_of_fmap_1 f) in Hin as (y & -> & Hy).
  apply (list_elem_of_fmap_2 f). apply list_elem_of_In.
  apply list_elem_of_In in Hy. by apply filter_In in Hy as [Hy _].
Qed.

Lemma removeTooOld_onePerDrone now vs :
  onePerDrone vs → onePerDrone (removeTooOld now vs).
Proof. apply NoDup_map_filter. Qed.

Lemma addOrUpdateViolations_onePerDrone new vs :
  onePerDrone vs → onePerDrone (V1.addOrUpdateViolations new vs).
Proof.
  unfold V1.addOrUpdateViolations, onePerDrone. revert vs.
  induction new as [|violation new IH]; intros vs Hvs; simpl; [done|].
  apply IH.
  destruct (list_find _ vs) as [[i x]|] eqn:Hfind.
  - by rewrite alter_serialNumbers.
  - apply list_find_None in Hfind.
    change (NoDup (serialNumber <$> vs ++ [violation])).
    rewrite fmap_app. apply NoDup_app. split; [done|]. split.
    + intros s Hs ->%list_elem_of_singleton.
      apply (list_elem_of_fmap_1 serialNumber) in Hs as (v & Hv & Hin).
      rewrite Forall_forall in Hfind. by apply (Hfind v Hin).
    + apply NoDup_singleton.
Qed.

Lemma V1_checkNewViolations_onePerDrone now answer axiosGet m :
  onePerDrone (V1.violations m) →
  onePerDrone (V1.violations (V1.checkNewViolations now answer axiosGet m).1).
Proof.
  intros Hvs. unfold V1.checkNewViolations.
  destruct (V1.throttle m); [done|].
  destruct answer as [capture|[status|]|]; simpl;
    try destruct (status =? 429)%Z; simpl; try done.
  destruct (parsedDrones capture) as [|?|ds] eqn:Hparsed;
    [done|done|].
  apply parsedDrones_array in Hparsed as ->.
  destruct (length (drone capture) =? 0)%nat; [done|].
  destruct (length (tooClose _) =? 0)%nat; [done|].
  simpl. by apply addOrUpdateViolations_onePerDrone.
Qed.

(** X2: the first revision stores at most one violation per serial number,
    whatever the snapshots list. *)
Theorem V1_one_violation_per_drone (cs : list V1.Cycle) (now : Z) :
  onePerDrone (V1.violations (V1.cycles cs V1.initial)) ∧
  onePerDrone
    (V1.violations
       (V1.removeTooOldViolations now (V1.cycles cs V1.initial))).
Proof.
  assert (H : ∀ m, onePerDrone (V1.violations m) →
                   onePerDrone (V1.violations (V1.cycles cs m))).
  { unfold V1.cycles.
    induction cs as [|[[t answer] axiosGet] cs IH]; intros m Hm; simpl; [done|].
    apply IH.
    by apply (V1_checkNewViolations_onePerDrone t answer axiosGet
                (V1.runTimeouts t m)). }
  assert (Hinit : onePerDrone (V1.violations V1.initial)) by constructor.
  split; [by apply H|]. simpl. by apply removeTooOld_onePerDrone, H.
Qed.

Lemma V2_checkNewViolations_onePerDrone now answer axiosGet m :
  distinctViolatorsIn (V2.CheckNewViolations answer axiosGet) →
  onePerDrone (V2.violations m) →
  onePerDrone (V2.violations (V2.checkNewViolations now answer axiosGet m).1).
Proof.
  intros Hdistinct Hvs. unfold V2.checkNewViolations.
  destruct (V2.throttle m); [done|].
  destruct answer as [capture|[status|]|]; simpl;
    try destruct (status =? 429)%Z; simpl; try done.
  destruct (parsedDrones capture) as [|?|ds] eqn:Hparsed;
    [done|done|].
  apply parsedDrones_array in Hparsed as ->.
  destruct (length (drone capture) =? 0)%nat; [done|].
  destruct (length (tooClose _) =? 0)%nat; [done|].
  destruct (fetchPilots _ _) as [newPilots|]; simpl; [|done].
  unfold onePerDrone. rewrite updateViolations_serialNumbers.
  change (NoDup (serialNumber <$> V2.violations m ++
                   V2.newViolations capture newPilots
                     (V2.tooCloseDistPerNewDrone (V2.violations m)
                        (tooClose (distPerDrone (drone capture)))))).
  rewrite fmap_app. apply NoDup_app. split; [done|].
  change (serialNumber <$> V2.newViolations capture newPilots ?l)
    with (map serialNumber (V2.newViolations capture newPilots l)).
  rewrite newViolations_serialNumbers. split.
  - intros s Hs Hnew.
    apply (list_elem_of_fmap_1 ddSerialNumber) in Hnew as (dd & -> & Hdd).
    by apply elem_of_tooCloseDistPerNewDrone in Hdd as [_ Hfresh].
  - by apply NoDup_map_filter.
Qed.

(** X1: the second revision stores at most one violation per serial number
    as long as no snapshot reports two drones with one serial number inside
    the zone. *)
Theorem V2_one_violation_per_drone (calls : list (Z * V2.Call)) :
  Forall (λ tc, distinctViolatorsIn tc.2) calls →
  onePerDrone (V2.violations (V2.run calls V2.initial).1).
Proof.
  assert (H : ∀ m, Forall (λ tc, distinctViolatorsIn tc.2) calls →
                   onePerDrone (V2.violations m) →
                   onePerDrone (V2.violations (V2.run calls m).1)).
  { induction calls as [|[now c] calls IH]; intros m Hcalls Hm; [done|].
    apply Forall_cons in Hcalls as [Hc Hcalls]. simpl in Hc.
    rewrite run_cons. simpl. apply IH; [done|].
    unfold V2.call. destruct c as [answer axiosGet|].
    - by apply V2_checkNewViolations_onePerDrone.
    - by apply removeTooOld_onePerDrone. }
  intros Hcalls. apply H; [done|]. constructor.
Qed.

Lemma V2_one_violation_per_drone_witness :
  let calls :=
    [(1001%Z, V2.CheckNewViolations (DronesParsed Sample.d1Inside)
                                    Sample.allFound);
     (3005%Z, V2.CheckNewViolations (DronesParsed Sample.d1d2Inside)
                                    Sample.d2Rejected);
     (3006%Z, V2.RemoveTooOldViolations)] in
  Forall (λ tc, distinctViolatorsIn tc.2) calls ∧
  onePerDrone (V2.violations (V2.run calls V2.initial).1).
Proof.
  intros calls.
  assert (Hcalls : Forall (λ tc : Z * V2.Call, distinctViolatorsIn tc.2) calls).
  { unfold calls. repeat (apply Forall_cons; split); [..|apply Forall_nil];
      simpl; try exact I; apply (bool_decide_unpack _); by vm_compute. }
  split; [exact Hcalls|].
  exact (V2_one_violation_per_drone calls Hcalls).
Defined.

(** ** Which stored violations a cycle updates *)

Lemma fromEntries_snoc {V} (entries : list (string * V)) k x :
  V2.fromEntries (entries ++ [(k, x)]) = <[k := x]> (V2.fromEntries entries).
Proof. unfold V2.fromEntries. by rewrite fold_left_app. Qed.

Lemma refs_snoc (vs : list NDZViolation) (x : NDZViolation) (s : string) :
  V2.fromEntries (imap (λ i v, (serialNumber v, i)) (vs ++ [x])) !! s
  = if decide (serialNumber x = s) then Some (length vs)
    else V2.fromEntries (imap (λ i v, (serialNumber v, i)) vs) !! s.
Proof.
  rewrite imap_app. simpl. rewrite fromEntries_snoc, lookup_insert.
  by rewrite Nat.add_0_r.
Qed.

(** The object [serialNumberViolationMap] holds for a serial number is the
    last violation of the array with that serial number. *)
Lemma refs_lookup (vs : list NDZViolation) (s : string) (i : nat) :
  V2.fromEntries (imap (λ i v, (serialNumber v, i)) vs) !! s = Some i ↔
  ∃ v, lastOfItsDrone vs i v ∧ serialNumber v = s.
Proof.
  revert i. induction vs as [|x vs IH] using rev_ind; intros i.
  - unfold V2.fromEntries. simpl. rewrite lookup_empty.
    split; [done|]. by intros (v & [Hv _] & _).
  - rewrite refs_snoc. destruct (decide (serialNumber x = s)) as [Hx|Hx].
    + split.
      * intros [= <-]. exists x. split; [|done]. split.
        -- by apply list_lookup_middle.
        -- intros j w Hj Hlt. apply lookup_lt_Some in Hj.
           rewrite length_app in Hj. simpl in Hj. lia.
      * intros (v & [Hv Hlast] & Hs). f_equal.
        apply lookup_snoc_Some in Hv as [[Hlt Hv]|[-> _]]; [|done].
        exfalso. apply (Hlast (length vs) x); [|done|congruence].
        by apply list_lookup_middle.
    + rewrite IH. split.
      * intros (v & [Hv Hlast] & Hs). exists v. split; [|done]. split.
        -- by apply lookup_app_l_Some.
        -- intros j w Hj Hlt.
           apply lookup_snoc_Some in Hj as [[Hj' Hj]|[-> <-]]; [eauto|].
           congruence.
      * intros (v & [Hv Hlast] & Hs). exists v. split; [|done].
        apply lookup_snoc_Some in Hv as [[Hlt Hv]|[-> <-]]; [|done].
        split; [done|]. intros j w Hj Hij. apply (Hlast j w); [|done].
        by apply lookup_app_l_Some.
Qed.

(** [updateViolations] runs the update body on the last violation of a
    drone once for each entry the snapshot has about the drone, inside the
    zone or not, and on nothing else. *)
Lemma updateViolations_lookup dists t vs i v :
  lastOfItsDrone vs i v →
  V2.updateViolations dists t vs !! i
  = Some (afterSightings t (sightings (serialNumber v) dists) v).
Proof.
  intros Hlast. unfold V2.updateViolations.
  assert (Hrefs : ∀ s j,
    V2.fromEntries (imap (λ i v, (serialNumber v, i)) vs) !! s = Some j →
    (j = i ↔ s = serialNumber v)).
  { intros s j (w & [Hw Hwlast] & Hs)%refs_lookup.
    destruct Hlast as [Hv Hvlast]. split.
    - intros ->. congruence.
    - intros ->. destruct (Nat.lt_trichotomy i j) as [Hlt|[Heq|Hgt]]; [|done|].
      + by destruct (Hvlast j w Hw Hlt).
      + destruct (Hwlast i v Hv Hgt). done. }
  assert (Hsome : is_Some
    (V2.fromEntries (imap (λ i v, (serialNumber v, i)) vs)
       !! serialNumber v)).
  { exists i. apply refs_lookup. by exists v. }
  revert Hrefs Hsome.
  generalize (V2.fromEntries (imap (λ i v, (serialNumber v, i)) vs)).
  intros refs Hrefs Hsome. destruct Hlast as [Hv _].
  assert (Hgen : ∀ (ws : list NDZViolation) w,
    ws !! i = Some w → serialNumber w = serialNumber v →
    fold_left
      (λ vs dd, match refs !! ddSerialNumber dd with
                | Some j => alter (updateViolation t (distance dd)) j vs
                | None => vs
                end) dists ws !! i
    = Some (afterSightings t (sightings (serialNumber v) dists) w)).
  { clear Hv. induction dists as [|dd dists IH]; intros ws w Hw Hs; [done|].
    simpl. unfold sightings, afterSightings in *. simpl.
    destruct (refs !! ddSerialNumber dd) as [j|] eqn:Hj.
    - destruct (Hrefs _ _ Hj) as [Hji Hij].
      case_bool_decide as Hdd.
      + rewrite (Hij Hdd). simpl. apply IH; [|done].
        by rewrite list_lookup_alter_eq, Hw.
      + apply IH; [|done]. rewrite list_lookup_alter_ne; [done|].
        intros ->. by apply Hdd, Hji.
    - case_bool_decide as Hdd; [|by apply IH].
      rewrite Hdd in Hj. rewrite Hj in Hsome. by destruct Hsome. }
  by apply Hgen.
Qed.

Lemma afterSightings_captureTime t seen v :
  seen ≠ [] → latestCaptureDateAndTime (afterSightings t seen v) = t.
Proof.
  unfold afterSightings. revert v.
  induction seen as [|dd seen IH] using rev_ind; intros v Hseen; [done|].
  by rewrite fold_left_app.
Qed.

Lemma sightings_nil s (droneCapture : list Drone) :
  s ∉ map droneSerialNumber droneCapture →
  sightings s (distPerDrone droneCapture) = [].
Proof.
  unfold sightings, distPerDrone.
  induction droneCapture as [|d ds IH]; simpl; [done|].
  intros [Hd Hds]%not_elem_of_cons.
  rewrite bool_decide_eq_false_2; [by apply IH|done].
Qed.

Lemma sightings_not_nil s (droneCapture : list Drone) :
  s ∈ map droneSerialNumber droneCapture →
  sightings s (distPerDrone droneCapture) ≠ [].
Proof.
  unfold sightings, distPerDrone.
  induction droneCapture as [|d ds IH]; simpl; [by intros ?%elem_of_nil|].
  intros [->|Hds]%elem_of_cons.
  - by rewrite bool_decide_eq_true_2.
  - case_bool_decide; [done|by apply IH].
Qed.

Lemma lastOfItsDrone_app vs new i v :
  lastOfItsDrone vs i v →
  (∀ w, w ∈ new → serialNumber w ∉ map serialNumber vs) →
  lastOfItsDrone (vs ++ new) i v.
Proof.
  intros [Hv Hlast] Hnew. split; [by apply lookup_app_l_Some|].
  intros j w Hj Hlt. apply lookup_app_Some in Hj as [Hj|[_ Hj]]; [eauto|].
  intros Hs. apply (Hnew w).
  - apply list_elem_of_lookup. eauto.
  - rewrite Hs. apply (list_elem_of_fmap_2 serialNumber).
    apply list_elem_of_lookup. eauto.
Qed.

Lemma newViolations_fresh capture newPilots vs dists w :
  w ∈ V2.newViolations capture newPilots
        (V2.tooCloseDistPerNewDrone vs dists) →
  serialNumber w ∉ map serialNumber vs.
Proof.
  intros Hw.
  assert (Hs : serialNumber w
               ∈ map ddSerialNumber (V2.tooCloseDistPerNewDrone vs dists)).
  { rewrite <- (newViolations_serialNumbers capture newPilots).
    by apply (list_elem_of_fmap_2 serialNumber). }
  apply (list_elem_of_fmap_1 ddSerialNumber) in Hs as (dd & -> & Hdd).
  by apply elem_of_tooCloseDistPerNewDrone in Hdd as [_ Hfresh].
Qed.

(** X3: what a cycle of the second revision that runs to its end (so the
    snapshot lists two or more drones) does to a stored violation (the last
    one of its drone): the update body runs once for every entry of the
    snapshot with the serial number, inside the zone or outside.  So the capture time becomes the snapshot's as soon as the
    snapshot lists the drone anywhere, and the violation is left alone when
    the snapshot does not list the drone. *)
Theorem V2_cycle_updates_every_sighting
    (now : Z) (capture : Capture) (axiosGet : string → PilotAnswer)
    (m : V2.Monitor) (newPilots : list (option PilotInfo))
    (i : nat) (v : NDZViolation) :
  V2.throttle m = false →
  2 ≤ length (drone capture) →
  tooClose (distPerDrone (drone capture)) ≠ [] →
  fetchPilots axiosGet (V2.newSerialNumbers m capture) = Some newPilots →
  lastOfItsDrone (V2.violations m) i v →
  let v' :=
    afterSightings (snapshotTimestamp capture)
      (sightings (serialNumber v) (distPerDrone (drone capture))) v in
  V2.violations
    (V2.checkNewViolations now (DronesParsed capture) axiosGet m).1 !! i
  = Some v' ∧
  (serialNumber v ∈ map droneSerialNumber (drone capture) →
   latestCaptureDateAndTime v' = snapshotTimestamp capture) ∧
  (serialNumber v ∉ map droneSerialNumber (drone capture) → v' = v).
Proof.
  intros Hthrottle Hseveral Hclose Hpilots Hlast v'. split; [|split].
  - rewrite (V2_checkNewViolations_completed _ _ _ _ newPilots); try done.
    simpl. apply updateViolations_lookup, lastOfItsDrone_app; [done|].
    intros w. apply newViolations_fresh.
  - intros Hlisted. by apply afterSightings_captureTime, sightings_not_nil.
  - intros Hunlisted. unfold v'. by rewrite sightings_nil.
Qed.

Lemma V2_cycle_updates_every_sighting_witness :
  let v := {| serialNumber := "D1"; closestDistanceInMm := 50000%float;
              pilot := Some (Sample.pilotOf "D1");
              latestCaptureDateAndTime := 1000 |} in
  V2.throttle Sample.tracked = false ∧
  2 ≤ length (drone Sample.d1OutsideD2Inside) ∧
  tooClose (distPerDrone (drone Sample.d1OutsideD2Inside)) ≠ [] ∧
  fetchPilots Sample.allFound
    (V2.newSerialNumbers Sample.tracked Sample.d1OutsideD2Inside)
  = Some [Some (Sample.pilotOf "D2")] ∧
  lastOfItsDrone (V2.violations Sample.tracked) 0 v ∧
  ∃ v', V2.violations
          (V2.checkNewViolations 3005 (DronesParsed Sample.d1OutsideD2Inside)
             Sample.allFound Sample.tracked).1 !! 0%nat = Some v' ∧
        latestCaptureDateAndTime v' = 3000%Z.
Proof.
  intros v.
  assert (Hclose : tooClose (distPerDrone (drone Sample.d1OutsideD2Inside)) ≠ [])
    by (by vm_compute).
  assert (Hlast : lastOfItsDrone (V2.violations Sample.tracked) 0 v).
  { split; [reflexivity|]. intros [|j] w Hw Hlt; [lia|]. by destruct j. }
  assert (Hseveral : 2 ≤ length (drone Sample.d1OutsideD2Inside))
    by (simpl; lia).
  split; [reflexivity|]. split; [exact Hseveral|]. split; [exact Hclose|].
  split; [reflexivity|]. split; [exact Hlast|].
  destruct (V2_cycle_updates_every_sighting 3005 Sample.d1OutsideD2Inside
              Sample.allFound Sample.tracked [Some (Sample.pilotOf "D2")] 0 v
              eq_refl Hseveral Hclose eq_refl Hlast) as (Hv' & Hlisted & _).
  eexists. split; [exact Hv'|]. apply Hlisted. left.
Defined.

(** ** Closest distance *)

Lemma numbers_cons_NaN d l :
  Number.isNaN d = true → numbers (d :: l) = numbers l.
Proof. unfold numbers. simpl. by intros ->. Qed.

Lemma numbers_cons_number d l :
  Number.isNaN d = false → numbers (d :: l) = d :: numbers l.
Proof. unfold numbers. simpl. by intros ->. Qed.

Lemma updateViolation_number t d v :
  Number.isNaN (closestDistanceInMm v) = false →
  Number.isNaN (closestDistanceInMm (updateViolation t d v)) = false.
Proof.
  rewrite !isNaN_false. intros Hv. simpl.
  destruct (Number.le d (closestDistanceInMm v)) eqn:Hle; [|done].
  by eapply NumberFacts.le_refl_l.
Qed.

(** Once the update body has run for each sighting, the stored distance is
    the smallest of the distance stored before and the observed distances
    that are numbers. *)
Lemma afterSightings_min t seen v :
  Number.isNaN (closestDistanceInMm v) = false →
  isMinOf (closestDistanceInMm (afterSightings t seen v))
          (closestDistanceInMm v :: numbers (map distance seen)).
Proof.
  unfold afterSightings. revert v.
  induction seen as [|dd seen IH]; intros v Hv; cbn [fold_left map].
  - split; [left|]. intros a ->%list_elem_of_singleton. by apply isNaN_false.
  - destruct (IH (updateViolation t (distance dd) v)) as [Hin Hle].
    { by apply updateViolation_number. }
    destruct (Number.isNaN (distance dd)) eqn:Hd.
    + rewrite numbers_cons_NaN by done.
      rewrite (updateViolation_NaN t _ v Hd) in Hin, Hle. by split.
    + rewrite numbers_cons_number by done.
      destruct (updateViolation_min t (distance dd) v Hv Hd)
        as (Hle1 & Hle2 & Heq).
      split.
      * apply elem_of_cons in Hin as [Hin|Hin].
        -- rewrite Hin. destruct Heq as [-> | ->]; [left|right; left].
        -- by do 2 right.
      * intros a Ha.
        apply elem_of_cons in Ha as [->|Ha];
          [|apply elem_of_cons in Ha as [->|Ha]].
        -- eapply NumberFacts.le_trans; [apply Hle; left|done].
        -- eapply NumberFacts.le_trans; [apply Hle; left|done].
        -- apply Hle. by right.
Qed.

(** C4: one run of the update body leaves the minimum of the stored and
    the observed distance (the stored one when the observed distance is NaN).
    [updateViolations] runs that body on the violation it finds for a serial
    number, once for each entry with the serial number, so the stored
    distance becomes the smallest of the distance stored before and the
    distances observed; a cycle that runs to its end does so with the
    distances of its snapshot.  And through any sequence of poll cycles a
    stored violation stays at its index, changes by the update body only,
    keeps its serial number, and has a closest distance that has not
    grown. *)
Theorem closest_distance_min_and_monotone
    (t : Z) (d : number) (cs : list V2.Cycle) (m : V2.Monitor)
    (i : nat) (v : NDZViolation) :
  V2.reachable m →
  V2.violations m !! i = Some v →
  (Number.isNaN d = false →
   isMin (closestDistanceInMm (updateViolation t d v))
         (closestDistanceInMm v) d) ∧
  (Number.isNaN d = true →
   closestDistanceInMm (updateViolation t d v) = closestDistanceInMm v) ∧
  (∀ dateAndTime distancePerDrone,
     lastOfItsDrone (V2.violations m) i v →
     ∃ v', V2.updateViolations distancePerDrone dateAndTime (V2.violations m)
             !! i = Some v' ∧
           v' = afterSightings dateAndTime
                  (sightings (serialNumber v) distancePerDrone) v ∧
           isMinOf (closestDistanceInMm v')
             (closestDistanceInMm v ::
                numbers (map distance
                           (sightings (serialNumber v) distancePerDrone)))) ∧
  (∀ now capture axiosGet,
     runsToItsEnd (DronesParsed capture) axiosGet m →
     lastOfItsDrone (V2.violations m) i v →
     ∃ v', V2.violations
             (V2.checkNewViolations now (DronesParsed capture) axiosGet m).1
             !! i = Some v' ∧
           isMinOf (closestDistanceInMm v')
             (closestDistanceInMm v ::
                numbers (observed (serialNumber v) capture))) ∧
  ∃ v', V2.violations (V2.cycles cs m) !! i = Some v' ∧
        updatedBy v v' ∧
        serialNumber v' = serialNumber v ∧
        Number.le (closestDistanceInMm v') (closestDistanceInMm v) = true.
Proof.
  intros Hreach Hi.
  assert (Hnum : Number.isNaN (closestDistanceInMm v) = false).
  { apply inZone_number.
    eapply Forall_lookup_1; [by apply reachable_inZone|exact Hi]. }
  split; [|split; [|split; [|split]]].
  - by apply updateViolation_min.
  - apply updateViolation_NaN.
  - intros dateAndTime distancePerDrone Hlast. eexists.
    split; [by apply updateViolations_lookup|]. split; [done|].
    by apply afterSightings_min.
  - intros now capture axiosGet Hruns Hlast.
    destruct (runsToItsEnd_completed now capture axiosGet m Hruns)
      as (newPilots & _ & ->).
    eexists. split.
    + simpl. apply updateViolations_lookup, lastOfItsDrone_app; [done|].
      intros w. apply newViolations_fresh.
    + by apply afterSightings_min.
  - destruct (V2_cycles_keeps updatedBy updateViolation_updatedBy cs m i v Hi)
      as (v' & Hv' & Hupd).
    destruct (V2_cycles_keeps notFarther updateViolation_notFarther cs m i v Hi)
      as (v'' & Hv'' & Hs & Hle).
    rewrite Hv' in Hv''. injection Hv'' as <-.
    exists v'. auto.
Qed.

Lemma closest_distance_witness :
  let v := {| serialNumber := "D1"; closestDistanceInMm := 50000%float;
              pilot := Some (Sample.pilotOf "D1");
              latestCaptureDateAndTime := 1000 |} in
  let cs := [(3005%Z, DronesParsed Sample.d1d2Inside, Sample.allFound);
             (5005%Z, DronesParsed Sample.d1OutsideD2Inside, Sample.allFound)] in
  V2.reachable Sample.tracked ∧
  V2.violations Sample.tracked !! 0%nat = Some v ∧
  isMin (closestDistanceInMm (updateViolation 3000 0%float v))
        (closestDistanceInMm v) 0%float ∧
  runsToItsEnd (DronesParsed Sample.d1AtCentre) Sample.allFound
               Sample.tracked ∧
  lastOfItsDrone (V2.violations Sample.tracked) 0 v ∧
  (∃ v', V2.violations
           (V2.checkNewViolations 3005 (DronesParsed Sample.d1AtCentre)
              Sample.allFound Sample.tracked).1 !! 0%nat = Some v' ∧
         isMinOf (closestDistanceInMm v') [50000%float; 0%float]) ∧
  ∃ v', V2.violations (V2.cycles cs Sample.tracked) !! 0%nat = Some v' ∧
        Number.le (closestDistanceInMm v') (closestDistanceInMm v) = true.
Proof.
  intros v cs.
  assert (Hruns : runsToItsEnd (DronesParsed Sample.d1AtCentre)
                    Sample.allFound Sample.tracked).
  { split; [reflexivity|]. exists Sample.d1AtCentre.
    split; [reflexivity|]. split; [simpl; lia|]. split.
    - exists (Sample.droneAt "D1" 250000%float 250000%float).
      split; [left|reflexivity].
    - discriminate. }
  assert (Hlast : lastOfItsDrone (V2.violations Sample.tracked) 0 v).
  { split; [reflexivity|]. intros [|j] w Hw Hlt; [lia|]. by destruct j. }
  split; [exact tracked_reachable|]. split; [reflexivity|].
  destruct (closest_distance_min_and_monotone 3000 0%float cs Sample.tracked
              0 v tracked_reachable eq_refl)
    as (Hmin & _ & _ & Hcycle & v' & Hv' & _ & _ & Hle).
  split; [exact (Hmin eq_refl)|]. split; [exact Hruns|].
  split; [exact Hlast|]. split.
  - exact (Hcycle 3005%Z Sample.d1AtCentre Sample.allFound Hruns Hlast).
  - exists v'. split; assumption.
Defined.

(** ** Further properties of the monitor *)

(** X4: every closest distance the monitor stores, after any calls of its
    two methods, is a number not greater than the radius of the zone. *)
Theorem stored_distances_inside_zone (calls : list (Z * V2.Call)) :
  Forall inZone (V2.violations (V2.run calls V2.initial).1).
Proof. apply reachable_inZone. by exists calls. Qed.

(** X5: [checkNewViolations] assigns [_lastUpdatedAt] in its last statement
    only.  A call that runs to its end (not throttled, the feed answered with
    a capture of two or more drones, one of them inside the zone, the pilot
    batch an array) leaves the time of the call there; every other call
    leaves the value that was there, and the violations with it. *)
Theorem lastUpdatedAt_set_at_the_end
    (now : Z) (answer : DronesAnswer) (axiosGet : string → PilotAnswer)
    (m : V2.Monitor) :
  (runsToItsEnd answer axiosGet m →
   V2.lastUpdatedAt (V2.checkNewViolations now answer axiosGet m).1
   = Some now) ∧
  (¬ runsToItsEnd answer axiosGet m →
   V2.lastUpdatedAt (V2.checkNewViolations now answer axiosGet m).1
   = V2.lastUpdatedAt m ∧
   V2.violations (V2.checkNewViolations now answer axiosGet m).1
   = V2.violations m).
Proof.
  split.
  - intros Hruns.
    assert (Hparsed : ∃ capture, answer = DronesParsed capture).
    { destruct Hruns as (_ & capture & -> & _). by exists capture. }
    destruct Hparsed as [capture ->].
    by destruct (runsToItsEnd_completed now capture axiosGet m Hruns)
      as (newPilots & _ & ->).
  - intros Hnot. unfold V2.checkNewViolations.
    destruct (V2.throttle m) eqn:Hthrottle; [done|].
    destruct answer as [capture|[status|]|]; simpl;
      try destruct (status =? 429)%Z; simpl; try done.
    destruct (parsedDrones capture) as [|?|ds] eqn:Hparsed; [done|done|].
    pose proof (parsedDrones_array_length _ _ Hparsed) as Hseveral.
    apply parsedDrones_array in Hparsed as ->.
    destruct (length (drone capture) =? 0)%nat; [done|].
    destruct (tooClose (distPerDrone (drone capture))) as [|dd dds] eqn:Hclose;
      [done|]. cbn [length Nat.eqb].
    destruct (fetchPilots _ _) as [newPilots|] eqn:Hpilots; [|done].
    exfalso. apply Hnot. split; [done|]. exists capture.
    split; [done|]. split; [done|]. split.
    + apply withinRadius_tooClose. by rewrite Hclose.
    + unfold V2.newSerialNumbers. by rewrite Hclose, Hpilots.
Qed.

(** The scenario of the specification, with a second drone far from the
    zone in each snapshot: "D1" at the centre gives a violation with closest
    distance 0; in the next cycle "D1" is 50 000 mm away, the closest
    distance stays 0 and the capture time advances. *)
Example scenario_closest_distance_stays :
  let atCentre :=
    {| snapshotTimestamp := 1000;
       drone := [Sample.droneAt "D1" 250000%float 250000%float;
                 Sample.droneAt "D3" 0%float 0%float] |} in
  let away :=
    {| snapshotTimestamp := 3000;
       drone := [Sample.droneAt "D1" 250000%float 300000%float;
                 Sample.droneAt "D3" 0%float 0%float] |} in
  let m1 := V2.cycle (1001%Z, DronesParsed atCentre, Sample.allFound)
                     V2.initial in
  let m2 := V2.cycle (3001%Z, DronesParsed away, Sample.allFound) m1 in
  map (λ v, (serialNumber v, closestDistanceInMm v,
             latestCaptureDateAndTime v)) (V2.violations m1)
  = [("D1", 0%float, 1000%Z)] ∧
  map (λ v, (serialNumber v, closestDistanceInMm v,
             latestCaptureDateAndTime v)) (V2.violations m2)
  = [("D1", 0%float, 3000%Z)] ∧
  map distance (sightings "D1" (distPerDrone (drone away))) = [50000%float].
Proof. repeat split. Qed.

(** The scenario of the specification: the pilot lookup of "D2" fails,
    the one of "D1" succeeds; "D1" gets its pilot, "D2" a [null] pilot. *)
Example scenario_partial_pilot_failure :
  map (λ v, (serialNumber v, pilot v))
      (V2.violations
         (V2.cycle (3005%Z, DronesParsed Sample.d1d2Inside, Sample.d2Rejected)
                   V2.initial))
  = [("D1", Some (Sample.pilotOf "D1")); ("D2", None)].
Proof. repeat split. Qed.

(** ** Where stored violations come from *)

Lemma subseteq_app_l {A} (l k : list A) : l ⊆ l ++ k.
Proof. intros x Hx. apply elem_of_app. by left. Qed.

Lemma subseteq_app_r {A} (l k : list A) : k ⊆ l ++ k.
Proof. intros x Hx. apply elem_of_app. by right. Qed.

Lemma capturesOf_cons now c calls :
  capturesOf ((now, c) :: calls) = capturesOf [(now, c)] ++ capturesOf calls.
Proof. unfold capturesOf. simpl. by destruct c as [[]|]. Qed.

Lemma registriesOf_cons now c calls :
  registriesOf ((now, c) :: calls)
  = registriesOf [(now, c)] ++ registriesOf calls.
Proof. unfold registriesOf. simpl. by destruct c. Qed.

Lemma comesFrom_mono captures captures' registries registries' v :
  captures ⊆ captures' → registries ⊆ registries' →
  comesFrom captures registries v → comesFrom captures' registries' v.
Proof.
  intros Hc Hr ((capture & d & Hin & Hd) & (capture' & Hin' & Ht) & Hp).
  split; [|split].
  - exists capture, d. split; [by apply Hc|done].
  - exists capture'. split; [by apply Hc|done].
  - intros p' Hp'. destruct (Hp p' Hp') as (axiosGet & Hin'' & Hans).
    exists axiosGet. split; [by apply Hr|done].
Qed.

Lemma pilotOfResult_Some answer p :
  pilotOfResult answer = Some (Some p) → answer = PilotFulfilled 200 (Some p).
Proof.
  destruct answer as [status [p'|]|]; simpl; try done.
  - destruct (Z.eqb_spec status 200) as [->|]; [|done].
    destruct p'. by intros [= <-].
  - by destruct (status =? 200)%Z.
Qed.

Lemma fetchPilots_lookup axiosGet serials pilots i s p :
  fetchPilots axiosGet serials = Some pilots →
  serials !! i = Some s → pilots !! i = Some (Some p) →
  axiosGet s = PilotFulfilled 200 (Some p).
Proof.
  unfold fetchPilots. intros Hall%mapM_Some Hs Hp.
  assert (Hans : map axiosGet serials !! i = Some (axiosGet s)).
  { change (map axiosGet serials) with (axiosGet <$> serials).
    by rewrite list_lookup_fmap, Hs. }
  destruct (Forall2_lookup_l _ _ _ _ _ Hall Hans) as (y & Hy & Hres).
  rewrite Hp in Hy. injection Hy as <-. by apply pilotOfResult_Some.
Qed.

(** The violations a cycle pushes. *)
Lemma newViolations_comesFrom capture axiosGet m newPilots :
  fetchPilots axiosGet (V2.newSerialNumbers m capture) = Some newPilots →
  Forall (comesFrom [capture] [axiosGet])
    (V2.newViolations capture newPilots
       (V2.tooCloseDistPerNewDrone (V2.violations m)
          (tooClose (distPerDrone (drone capture))))).
Proof.
  intros Hpilots. apply Forall_forall. intros v Hv.
  apply list_elem_of_lookup in Hv as [i Hv].
  unfold V2.newViolations in Hv. rewrite list_lookup_imap in Hv.
  destruct (V2.tooCloseDistPerNewDrone _ _ !! i) as [dd|] eqn:Hdd; [|done].
  injection Hv as <-.
  assert (Hin : dd ∈ V2.tooCloseDistPerNewDrone (V2.violations m)
                       (tooClose (distPerDrone (drone capture)))).
  { apply list_elem_of_lookup. eauto. }
  apply elem_of_tooCloseDistPerNewDrone in Hin as [Hin _].
  apply elem_of_tooClose in Hin as [Hin Hle].
  apply (list_elem_of_fmap_1 _) in Hin as (d & -> & Hd).
  split; [|split]; simpl.
  - exists capture, d. repeat split; try done. left.
  - exists capture. repeat split; [left|].
    by apply (list_elem_of_fmap_2 droneSerialNumber).
  - intros p Hp. exists axiosGet. split; [left|].
    destruct (newPilots !! i) as [[p'|]|] eqn:Hi; simpl in Hp; try done.
    injection Hp as ->.
    apply (fetchPilots_lookup _ _ _ i _ p Hpilots); [|done].
    unfold V2.newSerialNumbers.
    change (map ddSerialNumber ?l) with (ddSerialNumber <$> l).
    by rewrite list_lookup_fmap, Hdd.
Qed.

Lemma updateViolation_comesFrom captures registries capture d v :
  capture ∈ captures → d ∈ drone capture →
  droneSerialNumber d = serialNumber v →
  inZone v ∧ comesFrom captures registries v →
  let v' := updateViolation (snapshotTimestamp capture)
                            (calcDistanceToNDZcenter d) v in
  inZone v' ∧ comesFrom captures registries v'.
Proof.
  intros Hcapture Hd Hs [Hzone (Hsight & Hlisted & Hpilot)] v'.
  split; [by apply updateViolation_inZone|]. split; [|split].
  - unfold v'. simpl.
    destruct (Number.le _ (closestDistanceInMm v)) eqn:Hle; [|done].
    exists capture, d. repeat split; try done.
    by eapply NumberFacts.le_trans.
  - exists capture. repeat split; [done|]. simpl. rewrite <- Hs.
    by apply (list_elem_of_fmap_2 droneSerialNumber).
  - done.
Qed.

Lemma updateViolations_comesFrom captures registries capture vs :
  capture ∈ captures →
  Forall (λ v, inZone v ∧ comesFrom captures registries v) vs →
  Forall (λ v, inZone v ∧ comesFrom captures registries v)
    (V2.updateViolations (distPerDrone (drone capture))
                         (snapshotTimestamp capture) vs).
Proof.
  intros Hcapture Hvs. unfold V2.updateViolations.
  assert (Hrefs : ∀ s j,
    V2.fromEntries (imap (λ i v, (serialNumber v, i)) vs) !! s = Some j →
    map serialNumber vs !! j = Some s).
  { intros s j (w & [Hw _] & Hs)%refs_lookup.
    change (map serialNumber vs) with (serialNumber <$> vs).
    by rewrite list_lookup_fmap, Hw, <- Hs. }
  revert Hrefs.
  generalize (V2.fromEntries (imap (λ i v, (serialNumber v, i)) vs)).
  intros refs Hrefs.
  assert (Hdists : Forall (λ dd, ∃ d, d ∈ drone capture ∧
                                 ddSerialNumber dd = droneSerialNumber d ∧
                                 distance dd = calcDistanceToNDZcenter d)
                          (distPerDrone (drone capture))).
  { apply Forall_forall. intros dd (d & -> & Hd)%(list_elem_of_fmap_1 _).
    by exists d. }
  revert Hdists. generalize (distPerDrone (drone capture)). intros dists Hdists.
  assert (Hgen : ∀ ws : list NDZViolation,
    map serialNumber ws = map serialNumber vs →
    Forall (λ v, inZone v ∧ comesFrom captures registries v) ws →
    Forall (λ v, inZone v ∧ comesFrom captures registries v)
      (fold_left
         (λ vs dd, match refs !! ddSerialNumber dd with
                   | Some j =>
                       alter (updateViolation (snapshotTimestamp capture)
                                              (distance dd)) j vs
                   | None => vs
                   end) dists ws)).
  { induction Hdists as [|dd dists (d & Hd & Hs & Hdist) _ IH];
      intros ws Hserials Hws; [done|].
    simpl. destruct (refs !! ddSerialNumber dd) as [j|] eqn:Hj; [|by apply IH].
    apply IH; [by rewrite alter_serialNumbers|].
    apply Forall_alter; [done|]. intros x Hx Hqx. rewrite Hdist.
    apply updateViolation_comesFrom; try done.
    apply Hrefs in Hj. rewrite <- Hserials in Hj.
    change (map serialNumber ws) with (serialNumber <$> ws) in Hj.
    rewrite list_lookup_fmap, Hx in Hj. simpl in Hj. congruence. }
  by apply Hgen.
Qed.

Lemma checkNewViolations_comesFrom now capture axiosGet m captures registries :
  Forall (λ v, inZone v ∧ comesFrom captures registries v) (V2.violations m) →
  Forall (λ v, inZone v ∧
               comesFrom (captures ++ [capture]) (registries ++ [axiosGet]) v)
    (V2.violations
       (V2.checkNewViolations now (DronesParsed capture) axiosGet m).1).
Proof.
  intros Hvs.
  assert (Hold : Forall (λ v, inZone v ∧
      comesFrom (captures ++ [capture]) (registries ++ [axiosGet]) v)
      (V2.violations m)).
  { eapply Forall_impl; [exact Hvs|]. intros v [Hz Hv]. split; [done|].
    eapply comesFrom_mono; [| |exact Hv]; apply subseteq_app_l. }
  unfold V2.checkNewViolations.
  destruct (V2.throttle m); [done|]. simpl.
  destruct (parsedDrones capture) as [|?|ds] eqn:Hparsed;
    [done|done|].
  apply parsedDrones_array in Hparsed as ->.
  destruct (length (drone capture) =? 0)%nat; [done|].
  destruct (length (tooClose _) =? 0)%nat; [done|].
  destruct (fetchPilots _ _) as [newPilots|] eqn:Hpilots; simpl; [|done].
  apply updateViolations_comesFrom; [apply elem_of_app; right; left|].
  apply Forall_app. split; [done|].
  apply Forall_forall. intros v Hv. split.
  - eapply Forall_forall; [apply newViolations_inZone|exact Hv].
  - eapply comesFrom_mono;
      [| |eapply Forall_forall;
           [exact (newViolations_comesFrom capture axiosGet m newPilots Hpilots)
           |exact Hv]]; apply subseteq_app_r.
Qed.

Lemma call_comesFrom now c m captures registries :
  Forall (λ v, inZone v ∧ comesFrom captures registries v) (V2.violations m) →
  Forall (λ v, inZone v ∧
               comesFrom (captures ++ capturesOf [(now, c)])
                         (registries ++ registriesOf [(now, c)]) v)
    (V2.violations (V2.call now c m).1).
Proof.
  intros Hvs. unfold V2.call.
  destruct c as [[capture|status|] axiosGet|]; simpl.
  - by apply (checkNewViolations_comesFrom now capture axiosGet
                (V2.runTimeouts now m)).
  - assert (Hsame : V2.violations
        (V2.checkNewViolations now (DronesAxiosError status) axiosGet
           (V2.runTimeouts now m)).1 = V2.violations m).
    { unfold V2.checkNewViolations. destruct (V2.throttle _); [done|].
      destruct status as [status|]; simpl; [|done].
      by destruct (status =? 429)%Z. }
    rewrite Hsame. eapply Forall_impl; [exact Hvs|]. intros v [Hz Hv].
    split; [done|]. eapply comesFrom_mono; [| |exact Hv]; apply subseteq_app_l.
  - assert (Hsame : V2.violations
        (V2.checkNewViolations now DronesOtherError axiosGet
           (V2.runTimeouts now m)).1 = V2.violations m).
    { unfold V2.checkNewViolations. by destruct (V2.throttle _). }
    rewrite Hsame. eapply Forall_impl; [exact Hvs|]. intros v [Hz Hv].
    split; [done|]. eapply comesFrom_mono; [| |exact Hv]; apply subseteq_app_l.
  - rewrite !app_nil_r. rewrite Forall_forall in Hvs. apply Forall_forall.
    intros v Hv. apply Hvs. apply list_elem_of_In.
    apply list_elem_of_In in Hv. by apply filter_In in Hv as [Hv _].
Qed.

Lemma run_comesFrom calls m captures registries :
  Forall (λ v, inZone v ∧ comesFrom captures registries v) (V2.violations m) →
  Forall (λ v, inZone v ∧
               comesFrom (captures ++ capturesOf calls)
                         (registries ++ registriesOf calls) v)
    (V2.violations (V2.run calls m).1).
Proof.
  revert m captures registries.
  induction calls as [|[now c] calls IH]; intros m captures registries Hvs.
  - by rewrite !app_nil_r.
  - rewrite run_cons, capturesOf_cons, registriesOf_cons, !app_assoc.
    cbn [fst]. apply IH. by apply call_comesFrom.
Qed.

Lemma initial_comesFrom :
  Forall (λ v, inZone v ∧ comesFrom [] [] v) (V2.violations V2.initial).
Proof. constructor. Qed.

(** X7: whatever calls the monitor has been through, every violation it
    stores is of a drone that one of the snapshots reported inside the
    zone, and its closest distance is the distance of such a report. *)
Theorem stored_distance_was_sighted (calls : list (Z * V2.Call)) :
  Forall (λ v, sightedInside (capturesOf calls) (serialNumber v)
                             (closestDistanceInMm v))
         (V2.violations (V2.run calls V2.initial).1).
Proof.
  eapply Forall_impl; [exact (run_comesFrom calls _ _ _ initial_comesFrom)|].
  by intros v (_ & Hsight & _).
Qed.

(** X8: the capture time of every stored violation is the timestamp of one
    of the snapshots, and that snapshot lists the drone. *)
Theorem capture_time_is_a_snapshot_timestamp (calls : list (Z * V2.Call)) :
  Forall (λ v, listedAt (capturesOf calls) (serialNumber v)
                        (latestCaptureDateAndTime v))
         (V2.violations (V2.run calls V2.initial).1).
Proof.
  eapply Forall_impl; [exact (run_comesFrom calls _ _ _ initial_comesFrom)|].
  by intros v (_ & _ & Hlisted & _).
Qed.

(** X9: the pilot of every stored violation is [null] or the body of a
    status-200 answer that the pilot registry gave for the serial number of
    that violation. *)
Theorem stored_pilot_is_a_registry_answer (calls : list (Z * V2.Call)) :
  Forall (λ v, pilotFrom (registriesOf calls) (serialNumber v) (pilot v))
         (V2.violations (V2.run calls V2.initial).1).
Proof.
  eapply Forall_impl; [exact (run_comesFrom calls _ _ _ initial_comesFrom)|].
  by intros v (_ & _ & _ & Hpilot).
Qed.

(** ** [lastUpdatedAt] and the throttle along a run *)

Lemma checkNewViolations_updatedAtOneOf now answer axiosGet m times :
  updatedAtOneOf times m →
  updatedAtOneOf (times ++ [now])
    (V2.checkNewViolations now answer axiosGet m).1.
Proof.
  intros [Hnone Hsome].
  assert (Hold : updatedAtOneOf (times ++ [now]) m).
  { split; [done|]. intros t Ht. apply elem_of_app. left. by apply Hsome. }
  unfold V2.checkNewViolations.
  destruct (V2.throttle m); [done|].
  destruct answer as [capture|[status|]|]; simpl;
    try destruct (status =? 429)%Z; simpl; try done.
  destruct (parsedDrones capture) as [|?|ds] eqn:Hparsed;
    [done|done|].
  apply parsedDrones_array in Hparsed as ->.
  destruct (length (drone capture) =? 0)%nat; [done|].
  destruct (length (tooClose _) =? 0)%nat; [done|].
  destruct (fetchPilots _ _); simpl; [|done].
  split; [done|]. intros t [= <-]. apply elem_of_app. right. left.
Qed.

Lemma call_updatedAtOneOf now c m times :
  updatedAtOneOf times m → updatedAtOneOf (times ++ [now]) (V2.call now c m).1.
Proof.
  intros Hm. unfold V2.call. destruct c as [answer axiosGet|].
  - by apply checkNewViolations_updatedAtOneOf.
  - destruct Hm as [Hnone Hsome]. split; simpl.
    + intros Hlast. unfold V2.lastUpdatedAt in Hnone. simpl in Hnone.
      by rewrite (Hnone Hlast).
    + intros t Ht. apply elem_of_app. left. by apply Hsome.
Qed.

Lemma run_updatedAtOneOf calls m times :
  updatedAtOneOf times m →
  updatedAtOneOf (times ++ timesOf calls) (V2.run calls m).1.
Proof.
  revert m times. induction calls as [|[now c] calls IH]; intros m times Hm.
  - by rewrite app_nil_r.
  - rewrite run_cons. cbn [fst].
    change (timesOf ((now, c) :: calls)) with ([now] ++ timesOf calls).
    rewrite app_assoc. by apply IH, call_updatedAtOneOf.
Qed.

(** X10: along any run, [lastUpdatedAt] is [null] only while the monitor
    stores nothing, and when it is set it is the time of one of the calls. *)
Theorem lastUpdatedAt_along_a_run (calls : list (Z * V2.Call)) :
  updatedAtOneOf (timesOf calls) (V2.run calls V2.initial).1.
Proof. by apply (run_updatedAtOneOf calls V2.initial []). Qed.

Lemma call_throttleDueAfter now c m times :
  throttleDueAfter times m →
  throttleDueAfter (times ++ [now]) (V2.call now c m).1.
Proof.
  intros Hm.
  assert (Hrun : throttleDueAfter (times ++ [now]) (V2.runTimeouts now m)).
  { unfold throttleDueAfter, V2.runTimeouts, dueTimeouts, pendingTimeouts.
    destruct Hm as [[Hoff Hnone]|[Hon (t & Ht & Hone)]]; simpl.
    - rewrite Hnone. simpl. by left.
    - rewrite Hone. simpl. destruct (t + 6000 <=? now)%Z; simpl; [by left|].
      right. split; [done|]. exists t. split; [|done].
      apply elem_of_app. by left. }
  unfold V2.call. destruct c as [answer axiosGet|]; [|done].
  revert Hrun. generalize (V2.runTimeouts now m). clear m Hm. intros m Hm.
  unfold V2.checkNewViolations.
  destruct (V2.throttle m) eqn:Hthrottle; [done|].
  destruct Hm as [[_ Hnone]|[Hon _]]; [|congruence].
  destruct answer as [capture|[status|]|]; simpl;
    try (left; by split).
  - destruct (parsedDrones capture) as [|?|ds] eqn:Hparsed;
      [left; by split|left; by split|].
    apply parsedDrones_array in Hparsed as ->.
    destruct (length (drone capture) =? 0)%nat; [left; by split|].
    destruct (length (tooClose _) =? 0)%nat; [left; by split|].
    destruct (fetchPilots _ _); simpl; left; by split.
  - destruct (status =? 429)%Z; simpl; [|left; by split].
    right. split; [done|]. exists now. rewrite Hnone. split; [|done].
    apply elem_of_app. right. left.
Qed.

Lemma run_throttleDueAfter calls m times :
  throttleDueAfter times m →
  throttleDueAfter (times ++ timesOf calls) (V2.run calls m).1.
Proof.
  revert m times. induction calls as [|[now c] calls IH]; intros m times Hm.
  - by rewrite app_nil_r.
  - rewrite run_cons. cbn [fst].
    change (timesOf ((now, c) :: calls)) with ([now] ++ timesOf calls).
    rewrite app_assoc. by apply IH, call_throttleDueAfter.
Qed.

(** X11: along any run the throttle is on exactly while one callback is
    pending, and that callback is due 6000 ms after one of the calls; so a
    call made 6000 ms or more after every call of the run finds the throttle
    off and no callback pending: the monitor never stays throttled. *)
Theorem throttle_always_ends (calls : list (Z * V2.Call)) :
  let m := (V2.run calls V2.initial).1 in
  throttleDueAfter (timesOf calls) m ∧
  ∀ now, (∀ t, t ∈ timesOf calls → (t + 6000 ≤ now)%Z) →
         V2.throttle (V2.runTimeouts now m) = false ∧
         V2.timeouts (V2.runTimeouts now m) = [].
Proof.
  intros m.
  assert (Hm : throttleDueAfter (timesOf calls) m).
  { apply (run_throttleDueAfter calls V2.initial []). left. by split. }
  split; [done|]. intros now Hnow.
  destruct Hm as [[Hoff Hnone]|[Hon (t & Ht & Hone)]].
  - unfold V2.runTimeouts, dueTimeouts, pendingTimeouts. simpl.
    by rewrite Hnone, Hoff.
  - by apply (runTimeouts_after_cooldown t); [apply Hnow|].
Qed.

(** ** What a cycle asks the network for *)

(** X12: the second revision asks the pilot registry only about drones
    that the snapshot of this cycle reports inside the zone and that the
    store does not hold yet; it never asks about a tracked drone. *)
Theorem V2_pilot_requests_are_for_new_violators
    (now : Z) (answer : DronesAnswer) (axiosGet : string → PilotAnswer)
    (m : V2.Monitor) (s : string) :
  GetPilot s ∈ (V2.checkNewViolations now answer axiosGet m).2 →
  (s ∉ map serialNumber (V2.violations m)) ∧
  ∃ capture d, answer = DronesParsed capture ∧ d ∈ drone capture ∧
               droneSerialNumber d = s ∧ withinRadius d.
Proof.
  unfold V2.checkNewViolations.
  destruct (V2.throttle m); [by intros ?%elem_of_nil|].
  assert (Hone : GetPilot s ∈ [GetDrones] → False).
  { by intros [=]%list_elem_of_singleton. }
  destruct answer as [capture|[status|]|]; simpl;
    try destruct (status =? 429)%Z; simpl; try (by intros ?%Hone).
  destruct (parsedDrones capture) as [|?|ds] eqn:Hparsed;
    [by intros ?%Hone|by intros ?%Hone|].
  apply parsedDrones_array in Hparsed as ->.
  destruct (length (drone capture) =? 0)%nat; [by intros ?%Hone|].
  destruct (length (tooClose _) =? 0)%nat; [by intros ?%Hone|].
  intros Hreq.
  assert (Hs : s ∈ V2.newSerialNumbers m capture).
  { destruct (fetchPilots _ _); simpl in Hreq;
      apply elem_of_cons in Hreq as [[=]|Hreq];
      by apply (list_elem_of_fmap_1 GetPilot) in Hreq as (s' & [= ->] & Hs'). }
  apply (list_elem_of_fmap_1 ddSerialNumber) in Hs as (dd & -> & Hdd).
  apply elem_of_tooCloseDistPerNewDrone in Hdd as [Hdd Hfresh].
  split; [done|].
  apply elem_of_tooClose in Hdd as [Hdd Hle].
  apply (list_elem_of_fmap_1 _) in Hdd as (d & -> & Hd).
  by exists capture, d.
Qed.

Lemma V2_pilot_requests_witness :
  GetPilot "D2"
    ∈ (V2.checkNewViolations 3005 (DronesParsed Sample.d1d2Inside)
         Sample.allFound Sample.tracked).2 ∧
  "D2" ∉ map serialNumber (V2.violations Sample.tracked).
Proof.
  assert (Hreq : GetPilot "D2"
            ∈ (V2.checkNewViolations 3005 (DronesParsed Sample.d1d2Inside)
                 Sample.allFound Sample.tracked).2) by (right; left).
  split; [exact Hreq|].
  exact (proj1 (V2_pilot_requests_are_for_new_violators 3005
                  (DronesParsed Sample.d1d2Inside) Sample.allFound
                  Sample.tracked "D2" Hreq)).
Defined.

(** X13: the first revision asks the pilot registry about every drone that
    a snapshot of two or more drones reports inside the zone, in every
    cycle, whether the store holds the drone or not. *)
Theorem V1_pilot_requests_are_for_all_violators
    (now : Z) (capture : Capture) (axiosGet : string → PilotAnswer)
    (m : V1.Monitor) (d : Drone) :
  V1.throttle m = false →
  2 ≤ length (drone capture) →
  d ∈ drone capture →
  withinRadius d →
  GetPilot (droneSerialNumber d)
    ∈ (V1.checkNewViolations now (DronesParsed capture) axiosGet m).2.
Proof.
  intros Hthrottle Hseveral Hd Hin. unfold V1.checkNewViolations.
  rewrite Hthrottle. simpl.
  set (dd := {| ddSerialNumber := droneSerialNumber d;
                distance := calcDistanceToNDZcenter d |}).
  assert (Hdd : dd ∈ tooClose (distPerDrone (drone capture))).
  { apply elem_of_tooClose. split; [by apply elem_of_distPerDrone|done]. }
  rewrite (parsedDrones_several capture Hseveral).
  destruct (length (drone capture) =? 0)%nat eqn:Hlen;
    [apply Nat.eqb_eq in Hlen; lia|].
  destruct (tooClose (distPerDrone (drone capture))) as [|dd0 dds] eqn:Hclose;
    [by apply elem_of_nil in Hdd|].
  cbn [length Nat.eqb snd]. right.
  apply (list_elem_of_fmap_2 GetPilot).
  by apply (list_elem_of_fmap_2 ddSerialNumber _ dd).
Qed.

Lemma V1_pilot_requests_witness :
  let d := Sample.droneAt "D1" 250000%float 300000%float in
  V1.throttle Sample.trackedV1 = false ∧
  2 ≤ length (drone Sample.d1d2Inside) ∧
  d ∈ drone Sample.d1d2Inside ∧
  withinRadius d ∧
  "D1" ∈ map serialNumber (V1.violations Sample.trackedV1) ∧
  GetPilot "D1"
    ∈ (V1.checkNewViolations 3005 (DronesParsed Sample.d1d2Inside)
         Sample.allFound Sample.trackedV1).2.
Proof.
  intros d.
  assert (Hd : d ∈ drone Sample.d1d2Inside) by left.
  assert (Hseveral : 2 ≤ length (drone Sample.d1d2Inside)) by (simpl; lia).
  split; [reflexivity|]. split; [exact Hseveral|]. split; [exact Hd|].
  split; [reflexivity|]. split; [left|].
  exact (V1_pilot_requests_are_for_all_violators 3005 Sample.d1d2Inside
           Sample.allFound Sample.trackedV1 d eq_refl Hseveral Hd eq_refl).
Defined.

(** ** Cycles that end early *)

(** X14: a feed request that fails, whatever the failure, leaves the
    violations and [lastUpdatedAt] as they are and is followed by no pilot
    request; unless the failure is an axios error with status 429, it leaves
    the whole monitor as it is. *)
Theorem feed_failure_changes_no_violation
    (now : Z) (status : option Z) (axiosGet : string → PilotAnswer)
    (m : V2.Monitor) :
  let failed := V2.checkNewViolations now (DronesAxiosError status) axiosGet m in
  let other := V2.checkNewViolations now DronesOtherError axiosGet m in
  V2.violations failed.1 = V2.violations m ∧
  V2.lastUpdatedAt failed.1 = V2.lastUpdatedAt m ∧
  (status ≠ Some 429%Z → failed.1 = m) ∧
  (∀ s, GetPilot s ∉ failed.2) ∧
  other.1 = m ∧
  (∀ s, GetPilot s ∉ other.2).
Proof.
  intros failed other. unfold failed, other, V2.checkNewViolations.
  assert (Hone : ∀ s, GetPilot s ∉ [GetDrones]).
  { by intros s [=]%list_elem_of_singleton. }
  destruct (V2.throttle m);
    [by repeat split; try (intros s; apply not_elem_of_nil)|].
  destruct status as [status|]; simpl; [|by repeat split].
  destruct (Z.eqb_spec status 429) as [->|Hne]; simpl; by repeat split.
Qed.

(** X15: a cycle whose snapshot reports no drone inside the zone leaves the
    whole monitor as it is, the capture times of the tracked drones it lists
    included, and asks for no pilot. *)
Theorem no_violator_changes_nothing
    (now : Z) (capture : Capture) (axiosGet : string → PilotAnswer)
    (m : V2.Monitor) :
  tooClose (distPerDrone (drone capture)) = [] →
  (V2.checkNewViolations now (DronesParsed capture) axiosGet m).1 = m ∧
  ∀ s, GetPilot s ∉ (V2.checkNewViolations now (DronesParsed capture)
                       axiosGet m).2.
Proof.
  intros Hnone. unfold V2.checkNewViolations.
  assert (Hone : ∀ s, GetPilot s ∉ [GetDrones]).
  { by intros s [=]%list_elem_of_singleton. }
  destruct (V2.throttle m); [split; [done|intros s; apply not_elem_of_nil]|].
  simpl. destruct (parsedDrones capture) as [|?|ds] eqn:Hparsed; [done|done|].
  apply parsedDrones_array in Hparsed as ->.
  destruct (length (drone capture) =? 0)%nat; [done|].
  by rewrite Hnone.
Qed.

Lemma no_violator_witness :
  tooClose (distPerDrone (drone Sample.d1Outside)) = [] ∧
  "D1" ∈ map droneSerialNumber (drone Sample.d1Outside) ∧
  (V2.checkNewViolations 3005 (DronesParsed Sample.d1Outside) Sample.allFound
     Sample.tracked).1 = Sample.tracked.
Proof.
  split; [reflexivity|]. split; [left|].
  exact (proj1 (no_violator_changes_nothing 3005 Sample.d1Outside
                  Sample.allFound Sample.tracked eq_refl)).
Defined.



(** ** Eviction passes one after the other *)

Lemma keepViolation_earlier now1 now2 v :
  (now1 ≤ now2)%Z → keepViolation now2 v = true → keepViolation now1 v = true.
Proof.
  unfold keepViolation. rewrite !Z.leb_le. lia.
Qed.

(** X16: an eviction pass after an earlier eviction pass leaves what it
    would have left on its own: nothing an earlier pass removed would have
    survived a later one.  In particular a second pass at the same time
    removes nothing more. *)
Theorem eviction_passes_compose (now1 now2 : Z) (m : V2.Monitor) :
  (now1 ≤ now2)%Z →
  V2.removeTooOldViolations now2 (V2.removeTooOldViolations now1 m)
  = V2.removeTooOldViolations now2 m.
Proof.
  intros Hle. unfold V2.removeTooOldViolations, V2.setViolations. simpl.
  f_equal. unfold removeTooOld.
  induction (V2.violations m) as [|v vs IH]; simpl; [done|].
  destruct (keepViolation now1 v) eqn:H1; simpl.
  - by rewrite IH.
  - rewrite IH. destruct (keepViolation now2 v) eqn:H2; [|done].
    by rewrite (keepViolation_earlier now1 now2 v Hle H2) in H1.
Qed.

Lemma eviction_passes_witness :
  (2000 ≤ 700000)%Z ∧
  V2.removeTooOldViolations 700000
    (V2.removeTooOldViolations 2000 Sample.tracked)
  = V2.removeTooOldViolations 700000 Sample.tracked ∧
  V2.violations (V2.removeTooOldViolations 700000 Sample.tracked) = [].
Proof.
  assert (Hle : (2000 ≤ 700000)%Z) by lia.
  split; [exact Hle|]. split; [|reflexivity].
  exact (eviction_passes_compose 2000 700000 Sample.tracked Hle).
Defined.

(** ** The first revision stores every violator *)

Lemma addOrUpdateViolations_stores new vs x :
  x ∈ new →
  ∃ v, v ∈ V1.addOrUpdateViolations new vs ∧ serialNumber v = serialNumber x.
Proof.
  unfold V1.addOrUpdateViolations. revert vs.
  induction new as [|violation new IH]; intros vs Hx;
    [by apply elem_of_nil in Hx|].
  apply elem_of_cons in Hx as [->|Hx]; [|by apply IH].
  simpl.
  set (step := match list_find _ vs with
               | Some (i, _) => alter _ i vs
               | None => vs ++ [violation]
               end).
  assert (Hstep : ∃ v, v ∈ step ∧ serialNumber v = serialNumber violation).
  { unfold step. destruct (list_find _ vs) as [[i w]|] eqn:Hfind.
    - apply list_find_Some in Hfind as (Hw & Hs & _).
      eexists. split.
      + apply list_elem_of_lookup. exists i.
        by rewrite list_lookup_alter_eq, Hw.
      + done.
    - exists violation. split; [|done]. apply elem_of_app. right. left. }
  destruct Hstep as (v & Hv & Hs).
  destruct (keeps_elem_of sameSerialNumber _ _ v
              (addOrUpdateViolations_keeps sameSerialNumber
                 updateViolation_sameSerialNumber new step) Hv)
    as (v' & Hv' & Hs').
  exists v'. split; [done|]. unfold sameSerialNumber in Hs'. congruence.
Qed.

(** X17: in the first revision every drone that a snapshot of two or more
    drones reports inside the zone has a violation in the store after the
    cycle, whatever the pilot registry answers, a failure of the whole batch
    included (the second revision gives the cycle up in that case). *)
Theorem V1_violators_are_stored
    (now : Z) (capture : Capture) (axiosGet : string → PilotAnswer)
    (m : V1.Monitor) (d : Drone) :
  V1.throttle m = false →
  2 ≤ length (drone capture) →
  d ∈ drone capture →
  withinRadius d →
  ∃ v, v ∈ V1.violations
             (V1.checkNewViolations now (DronesParsed capture) axiosGet m).1 ∧
       serialNumber v = droneSerialNumber d.
Proof.
  intros Hthrottle Hseveral Hd Hin. unfold V1.checkNewViolations.
  rewrite Hthrottle. simpl.
  set (dd := {| ddSerialNumber := droneSerialNumber d;
                distance := calcDistanceToNDZcenter d |}).
  assert (Hdd : dd ∈ tooClose (distPerDrone (drone capture))).
  { apply elem_of_tooClose. split; [by apply elem_of_distPerDrone|done]. }
  rewrite (parsedDrones_several capture Hseveral).
  destruct (length (drone capture) =? 0)%nat eqn:Hlen;
    [apply Nat.eqb_eq in Hlen; lia|].
  destruct (tooClose (distPerDrone (drone capture))) as [|dd0 dds] eqn:Hclose;
    [by apply elem_of_nil in Hdd|].
  cbn [length Nat.eqb fst V1.violations].
  apply list_elem_of_lookup in Hdd as [i Hi].
  set (new := imap _ (dd0 :: dds)).
  assert (Hnew : ∃ x, x ∈ new ∧ serialNumber x = droneSerialNumber d).
  { eexists. split.
    - apply list_elem_of_lookup. exists i. unfold new.
      rewrite list_lookup_imap, Hi. reflexivity.
    - done. }
  destruct Hnew as (x & Hx & Hs).
  destruct (addOrUpdateViolations_stores new (V1.violations m) x Hx)
    as (v & Hv & Hvs).
  exists v. split; [done|]. congruence.
Qed.

Lemma V1_violators_witness :
  let d := Sample.droneAt "D2" 250000%float 250000%float in
  V1.throttle Sample.trackedV1 = false ∧
  2 ≤ length (drone Sample.d1d2Inside) ∧
  d ∈ drone Sample.d1d2Inside ∧
  withinRadius d ∧
  fetchPilots Sample.d2NullBody ["D1"; "D2"] = None ∧
  ∃ v, v ∈ V1.violations
             (V1.checkNewViolations 3005 (DronesParsed Sample.d1d2Inside)
                Sample.d2NullBody Sample.trackedV1).1 ∧
       serialNumber v = "D2".
Proof.
  intros d.
  assert (Hd : d ∈ drone Sample.d1d2Inside) by (right; left).
  assert (Hseveral : 2 ≤ length (drone Sample.d1d2Inside)) by (simpl; lia).
  split; [reflexivity|]. split; [exact Hseveral|]. split; [exact Hd|].
  split; [reflexivity|]. split; [reflexivity|].
  exact (V1_violators_are_stored 3005 Sample.d1d2Inside Sample.d2NullBody
           Sample.trackedV1 d eq_refl Hseveral Hd eq_refl).
Defined.

(** ** Distances *)

Lemma SFmul_abs (a : spec_float) :
  SF64mul (SFabs a) (SFabs a) = SF64mul a a.
Proof. by destruct a as [[]|[]| |[] m e]. Qed.

Lemma sq_abs (a : number) : Number.sq (PrimFloat.abs a) = Number.sq a.
Proof.
  unfold Number.sq. apply Prim2SF_inj.
  by rewrite !mul_spec, abs_spec, SFmul_abs.
Qed.

(** X18: taking the absolute values before squaring changes nothing: the
    distance is the square root of the sum of the squares of the two
    coordinate differences, to the bit. *)
Theorem distance_ignores_abs (d : Drone) :
  calcDistanceToNDZcenter d
  = PrimFloat.sqrt
      (Number.sq (positionX d - NDZcenterPosX)
       + Number.sq (positionY d - NDZcenterPosY))%float.
Proof. unfold calcDistanceToNDZcenter. by rewrite !sq_abs. Qed.

Lemma binary_round_aux_positive mx ex lx :
  match binary_round_aux prec emax false mx ex lx with
  | S754_zero s | S754_infinity s | S754_finite s _ _ => s = false
  | S754_nan => True
  end.
Proof.
  unfold binary_round_aux.
  destruct (shr_fexp prec emax mx ex lx) as [mrs' e'].
  destruct (shr_fexp prec emax _ e' loc_Exact) as [mrs'' e''].
  destruct (shr_m mrs''); [done| |done].
  by destruct (e'' <=? emax - prec)%Z.
Qed.

Lemma SFsqrt_not_negative (a : spec_float) :
  SF64sqrt a = S754_nan ∨ SFleb (S754_zero false) (SF64sqrt a) = true.
Proof.
  destruct a as [s|[]| |[] m e]; simpl; auto.
  unfold SF64sqrt, SFsqrt.
  destruct (SFsqrt_core_binary prec emax (Z.pos m) e) as [[mz ez] lz].
  pose proof (binary_round_aux_positive mz ez lz) as Hsign.
  destruct (binary_round_aux prec emax false mz ez lz) as [s|s| |s m' e'];
    auto; rewrite Hsign; auto.
Qed.

Lemma sqrt_not_negative (a : number) :
  Number.isNaN (PrimFloat.sqrt a) = true ∨
  Number.le 0%float (PrimFloat.sqrt a) = true.
Proof.
  unfold Number.isNaN, Number.le. rewrite !leb_spec, sqrt_spec.
  destruct (SFsqrt_not_negative (Prim2SF a)) as [Hnan|Hle].
  - left. by rewrite Hnan.
  - by right.
Qed.

(** X19: the distance of a drone is never negative: it is NaN (and then
    the drone counts as outside the zone) or at least 0; and every closest
    distance the monitor stores lies between 0 and the radius. *)
Theorem distance_is_never_negative :
  (∀ d, Number.isNaN (calcDistanceToNDZcenter d) = true ∧ ¬ withinRadius d ∨
        Number.le 0%float (calcDistanceToNDZcenter d) = true) ∧
  (∀ calls,
     Forall (λ v, Number.le 0%float (closestDistanceInMm v) = true ∧
                  Number.le (closestDistanceInMm v) NDZRadiusInMm = true)
            (V2.violations (V2.run calls V2.initial).1)).
Proof.
  assert (Hdist : ∀ d,
    Number.isNaN (calcDistanceToNDZcenter d) = true ∧ ¬ withinRadius d ∨
    Number.le 0%float (calcDistanceToNDZcenter d) = true).
  { intros d. destruct (sqrt_not_negative
      (Number.sq (PrimFloat.abs (positionX d - NDZcenterPosX))
       + Number.sq (PrimFloat.abs (positionY d - NDZcenterPosY)))%float)
      as [Hnan|Hle]; [left|by right].
    split; [done|]. unfold withinRadius. intros Hin.
    apply NumberFacts.le_refl_l in Hin. unfold Number.isNaN in Hnan.
    unfold calcDistanceToNDZcenter in Hin. by rewrite Hin in Hnan. }
  split; [done|]. intros calls.
  eapply Forall_impl;
    [exact (run_comesFrom calls _ _ _ initial_comesFrom)|].
  intros v (Hzone & (capture & d & _ & _ & _ & Hin & Hd) & _).
  split; [|done]. rewrite <- Hd.
  by destruct (Hdist d) as [[_ Hout]|Hle].
Qed.

(** ** The page *)

Section Page.
Context (violationsToHTML : list NDZViolation → string).

#[local] Abbreviation update :=
  (Frontend.updateTableContent violationsToHTML).
#[local] Abbreviation updates := (Frontend.updates violationsToHTML).

(** An update returns before touching the page, or leaves one element on
    show: the error for a failed request, the no-content note for an empty
    list, the table otherwise. *)
Lemma update_shows response t :
  Frontend.arrivedLate (Frontend.getViolations response).2 t = true ∧
  update response t = t ∨
  Frontend.arrivedLate (Frontend.getViolations response).2 t = false ∧
  shows match (Frontend.getViolations response).1 with
        | None => ShowsError
        | Some [] => ShowsNoContent
        | Some (_ :: _) => ShowsTable
        end (update response t).
Proof.
  unfold Frontend.updateTableContent.
  destruct (Frontend.getViolations response) as [violations dateAndTime].
  simpl. destruct (Frontend.arrivedLate dateAndTime t); [by left|right].
  split; [done|]. by destruct violations as [[|v vs]|].
Qed.

Lemma update_keeps_showing response t :
  (∃ what, shows what t) → ∃ what, shows what (update response t).
Proof.
  intros Ht. destruct (update_shows response t) as [[_ ->]|[_ Hshows]];
    [done|eauto].
Qed.

Lemma update_acceptedSince response t p :
  acceptedSince p t → acceptedSince p (update response t).
Proof.
  intros (p' & Hp' & Hle). unfold Frontend.updateTableContent.
  destruct (Frontend.getViolations response) as [violations dateAndTime].
  unfold Frontend.arrivedLate. rewrite Hp'.
  destruct dateAndTime as [d|].
  - destruct (Z.ltb_spec d p'); [by exists p'|].
    exists d. split; [|lia]. by destruct violations as [[|v vs]|].
  - exists p'. split; [|done]. by destruct violations as [[|v vs]|].
Qed.

(** X20: from the first response on, whatever the responses and their
    order, the page has the spinner hidden and exactly one of the table, the
    error and the no-content note on show, and the table body is empty
    unless the table is on show. *)
Theorem page_shows_one_element
    (response : option Server.Response)
    (responses : list (option Server.Response))
    (t : Frontend.ViolationTable) :
  Frontend.perviousDataDateAndTime t = None →
  ∃ what, shows what (updates (response :: responses) t).
Proof.
  intros Hfirst. unfold Frontend.updates. simpl.
  assert (Hshown : ∃ what, shows what (update response t)).
  { destruct (update_shows response t) as [[Hlate _]|[_ Hshows]]; [|eauto].
    unfold Frontend.arrivedLate in Hlate. rewrite Hfirst in Hlate.
    by destruct (Frontend.getViolations response).2. }
  revert Hshown. generalize (update response t). clear t Hfirst.
  induction responses as [|r responses IH]; intros t Ht; [done|].
  simpl. by apply IH, update_keeps_showing.
Qed.

(** X21: the timestamp the page remembers never goes back, and a response
    with an older timestamp than the remembered one changes nothing on the
    page. *)
Theorem page_drops_late_responses
    (responses : list (option Server.Response))
    (t : Frontend.ViolationTable) (p : Z) :
  acceptedSince p t →
  acceptedSince p (updates responses t) ∧
  ∀ response d,
    (Frontend.getViolations response).2 = Some d → (d < p)%Z →
    update response (updates responses t) = updates responses t.
Proof.
  intros Hp.
  assert (Hafter : acceptedSince p (updates responses t)).
  { unfold Frontend.updates. revert t Hp.
    induction responses as [|r responses IH]; intros t Hp; [done|].
    simpl. by apply IH, update_acceptedSince. }
  split; [done|]. intros response d Hd Hlt.
  destruct Hafter as (p' & Hp' & Hle).
  unfold Frontend.updateTableContent.
  destruct (Frontend.getViolations response) as [violations dateAndTime].
  simpl in Hd. subst dateAndTime. unfold Frontend.arrivedLate. rewrite Hp'.
  destruct (Z.ltb_spec d p'); [done|lia].
Qed.

(** X22: for an answer of the controller that does not arrive late, the
    page never shows the error: it shows the table, filled with the markup of
    the stored violations, when the monitor stores a violation, and the
    no-content note when it stores none; and it remembers the monitor's
    [lastUpdatedAt] when that is set. *)
Theorem page_shows_what_the_monitor_stores
    (m : V2.Monitor) (t : Frontend.ViolationTable) :
  Frontend.arrivedLate (V2.lastUpdatedAt m) t = false →
  let t' := update (Some (Server.getViolations m)) t in
  (V2.violations m = [] → shows ShowsNoContent t') ∧
  (V2.violations m ≠ [] →
   shows ShowsTable t' ∧
   Frontend.tableBody t' = violationsToHTML (V2.violations m)) ∧
  (∀ at_, V2.lastUpdatedAt m = Some at_ →
          Frontend.perviousDataDateAndTime t' = Some at_).
Proof.
  intros Hlate t'. unfold t', Frontend.updateTableContent. simpl.
  unfold V2.getViolations.
  assert (Hdate : match V2.lastUpdatedAt m with
                  | Some t0 => Some t0 | None => None end = V2.lastUpdatedAt m)
    by (by destruct (V2.lastUpdatedAt m)).
  rewrite Hdate, Hlate.
  destruct (V2.violations m) as [|v vs]; split; try done; split; try done.
  - intros at_ ->. done.
  - intros at_ ->. done.
Qed.

End Page.

Lemma page_shows_one_element_witness :
  let responses :=
    [None; Some (Server.getViolations Sample.tracked);
     Some (Server.getViolations V2.initial)] in
  Frontend.perviousDataDateAndTime Sample.page = None ∧
  ∃ what, shows what (Frontend.updates Sample.rows responses Sample.page).
Proof.
  intros responses. split; [reflexivity|].
  exact (page_shows_one_element Sample.rows None
           [Some (Server.getViolations Sample.tracked);
            Some (Server.getViolations V2.initial)] Sample.page eq_refl).
Defined.

Lemma page_drops_late_responses_witness :
  let t := Frontend.updateTableContent Sample.rows
             (Some (Server.getViolations Sample.tracked)) Sample.page in
  let late :=
    Some {| Server.status := 200; Server.accessControlAllowOrigin := Some "*";
            Server.violations := []; Server.lastUpdatedAt := Some 500%Z |} in
  acceptedSince 1001 t ∧
  Frontend.updateTableContent Sample.rows late t = t ∧
  shows ShowsTable t.
Proof.
  intros t late.
  assert (Hp : acceptedSince 1001 t) by (exists 1001%Z; split; [reflexivity|lia]).
  split; [exact Hp|]. split; [|by repeat split].
  exact (proj2 (page_drops_late_responses Sample.rows [] t 1001 Hp)
           late 500%Z eq_refl eq_refl).
Defined.

Lemma page_shows_what_the_monitor_stores_witness :
  Frontend.arrivedLate (V2.lastUpdatedAt Sample.tracked) Sample.page = false ∧
  V2.violations Sample.tracked ≠ [] ∧
  shows ShowsTable
    (Frontend.updateTableContent Sample.rows
       (Some (Server.getViolations Sample.tracked)) Sample.page) ∧
  Frontend.tableBody
    (Frontend.updateTableContent Sample.rows
       (Some (Server.getViolations Sample.tracked)) Sample.page)
  = "<tr>D1</tr>".
Proof.
  assert (Hstored : V2.violations Sample.tracked ≠ []) by discriminate.
  split; [reflexivity|]. split; [exact Hstored|].
  destruct (page_shows_what_the_monitor_stores Sample.rows Sample.tracked
              Sample.page eq_refl) as (_ & Htable & _).
  destruct (Htable Hstored) as [Hshows Hbody].
  split; [exact Hshows|]. exact Hbody.
Defined.

(** X23: a request that fails (no response, or a status other than 200)
    always puts the error on show and empties the table, whatever was shown
    before and however late the failure arrives; the remembered timestamp
    stays. *)
Theorem page_shows_every_failure
    (violationsToHTML : list NDZViolation → string)
    (t : Frontend.ViolationTable) :
  (shows ShowsError (Frontend.updateTableContent violationsToHTML None t) ∧
   Frontend.perviousDataDateAndTime
     (Frontend.updateTableContent violationsToHTML None t)
   = Frontend.perviousDataDateAndTime t) ∧
  ∀ response,
    Server.status response ≠ 200%Z →
    shows ShowsError
      (Frontend.updateTableContent violationsToHTML (Some response) t) ∧
    Frontend.perviousDataDateAndTime
      (Frontend.updateTableContent violationsToHTML (Some response) t)
    = Frontend.perviousDataDateAndTime t.
Proof.
  split; [by repeat split|]. intros response Hstatus.
  unfold Frontend.updateTableContent, Frontend.getViolations.
  destruct (Z.eqb_spec (Server.status response) 200) as [Heq|_]; [done|].
  by repeat split.
Qed.

(** ** Where the two revisions agree *)

Lemma afterBatch_cons x batch v :
  afterBatch (x :: batch) v
  = if bool_decide (serialNumber x = serialNumber v)
    then afterBatch batch
           (updateViolation (latestCaptureDateAndTime x)
                            (closestDistanceInMm x) v)
    else afterBatch batch v.
Proof. unfold afterBatch. simpl. by case_bool_decide. Qed.

Lemma NoDup_serialNumber_lookup (vs : list NDZViolation) i j v w :
  onePerDrone vs → vs !! i = Some v → vs !! j = Some w →
  serialNumber v = serialNumber w → i = j.
Proof.
  intros Hvs Hv Hw Hs. apply (NoDup_lookup _ i j (serialNumber v) Hvs).
  - change (map serialNumber vs) with (serialNumber <$> vs).
    by rewrite list_lookup_fmap, Hv.
  - change (map serialNumber vs) with (serialNumber <$> vs).
    by rewrite list_lookup_fmap, Hw, Hs.
Qed.

(** What [addOrUpdateViolations] does when neither the store nor the batch
    repeats a serial number; [B] is what the loop has pushed so far. *)
Lemma addOrUpdateViolations_spec batch A B :
  onePerDrone batch → onePerDrone A →
  (∀ x, x ∈ batch → serialNumber x ∉ map serialNumber B) →
  V1.addOrUpdateViolations batch (A ++ B)
  = map (afterBatch batch) A ++ B ++ newIn A batch.
Proof.
  unfold V1.addOrUpdateViolations, newIn. revert A B.
  induction batch as [|x batch IH]; intros A B Hbatch HA HB.
  - simpl. rewrite app_nil_r. f_equal. symmetry. apply map_id.
  - apply NoDup_cons in Hbatch as [Hx Hbatch]. simpl.
    destruct (decide (serialNumber x ∈ map serialNumber A)) as [Hin|Hout].
    + rewrite bool_decide_eq_true_2 by done. simpl.
      apply (list_elem_of_fmap_1 serialNumber) in Hin as (a & Hs & Ha).
      apply list_elem_of_lookup in Ha as [i Hi].
      assert (Hfind : list_find
                (λ v, serialNumber v = serialNumber x) (A ++ B) = Some (i, a)).
      { apply list_find_Some. split; [by apply lookup_app_l_Some|].
        split; [done|]. intros j y Hj Hlt Hy.
        assert (Hj' : A !! j = Some y).
        { rewrite lookup_app_l in Hj; [done|].
          apply lookup_lt_Some in Hi. lia. }
        assert (i = j); [|lia].
        apply (NoDup_serialNumber_lookup A i j a y HA Hi Hj'). congruence. }
      rewrite Hfind.
      rewrite alter_app_l by (by apply lookup_lt_Some in Hi).
      rewrite IH; try done.
      * f_equal; [|f_equal].
        -- apply list_eq. intros j.
           change (map ?f ?l) with (f <$> l). rewrite !list_lookup_fmap.
           destruct (decide (i = j)) as [<-|Hne].
           ++ rewrite list_lookup_alter_eq, Hi. simpl. f_equal.
              rewrite afterBatch_cons, bool_decide_eq_true_2; done.
           ++ rewrite list_lookup_alter_ne by done.
              destruct (A !! j) as [y|] eqn:Hj; [|done]. simpl. f_equal.
              rewrite afterBatch_cons, bool_decide_eq_false_2; [done|].
              intros Hy. apply Hne.
              apply (NoDup_serialNumber_lookup A i j a y HA Hi Hj). congruence.
        -- apply filter_ext. intros y. by rewrite alter_serialNumbers.
      * unfold onePerDrone. by rewrite alter_serialNumbers.
      * intros y Hy. apply HB. by right.
    + rewrite bool_decide_eq_false_2 by done. simpl.
      assert (Hfind : list_find
                (λ v, serialNumber v = serialNumber x) (A ++ B) = None).
      { apply list_find_None, Forall_forall. intros y Hy Hs.
        apply elem_of_app in Hy as [Hy|Hy].
        - apply Hout. rewrite <- Hs.
          by apply (list_elem_of_fmap_2 serialNumber).
        - apply (HB x); [left|]. rewrite <- Hs.
          by apply (list_elem_of_fmap_2 serialNumber). }
      rewrite Hfind, <- app_assoc. rewrite IH; try done.
      * rewrite <- app_assoc. simpl. f_equal.
        apply map_ext_in. intros y Hy.
        rewrite afterBatch_cons, bool_decide_eq_false_2; [done|].
        intros Hs. apply Hout. rewrite Hs.
        apply (list_elem_of_fmap_2 serialNumber). by apply list_elem_of_In.
      * intros y Hy. change (map serialNumber (B ++ [x]))
          with (serialNumber <$> B ++ [x]).
        rewrite fmap_app. apply not_elem_of_app. split.
        -- apply HB. by right.
        -- simpl. intros Hs%list_elem_of_singleton. apply Hx.
           rewrite <- Hs. by apply (list_elem_of_fmap_2 serialNumber).
Qed.

Lemma onePerDrone_lastOfItsDrone (vs : list NDZViolation) i v :
  onePerDrone vs → vs !! i = Some v → lastOfItsDrone vs i v.
Proof.
  intros Hvs Hv. split; [done|]. intros j w Hw Hlt Hs.
  assert (i = j); [|lia].
  by apply (NoDup_serialNumber_lookup vs i j v w).
Qed.

(** What [updateViolations] does to a store that holds no serial number
    twice. *)
Lemma updateViolations_map dists t vs :
  onePerDrone vs →
  V2.updateViolations dists t vs
  = map (λ v, afterSightings t (sightings (serialNumber v) dists) v) vs.
Proof.
  intros Hvs. apply list_eq. intros i.
  change (map ?f vs) with (f <$> vs). rewrite list_lookup_fmap.
  destruct (vs !! i) as [v|] eqn:Hv; simpl.
  - by apply updateViolations_lookup, onePerDrone_lastOfItsDrone.
  - apply lookup_ge_None. apply lookup_ge_None in Hv.
    assert (Hlen : length (V2.updateViolations dists t vs) = length vs).
    { rewrite <- (length_map serialNumber),
        updateViolations_serialNumbers. apply length_map. }
    lia.
Qed.

Lemma pilotOfResult_resolvedPilot answer y :
  pilotOfResult answer = Some y → y = resolvedPilot answer.
Proof.
  destruct answer as [status [p|]|]; simpl.
  - destruct (status =? 200)%Z; [|by intros [= <-]].
    destruct p. by intros [= <-].
  - by destruct (status =? 200)%Z; [|intros [= <-]].
  - by intros [= <-].
Qed.

Lemma fetchPilots_Some axiosGet serials pilots :
  fetchPilots axiosGet serials = Some pilots →
  pilots = map (λ s, resolvedPilot (axiosGet s)) serials.
Proof.
  unfold fetchPilots. intros Hall%mapM_Some. revert pilots Hall.
  induction serials as [|s serials IH]; intros pilots Hall; simpl in *.
  - by inversion Hall.
  - inversion Hall as [|? y ? ps Hy Hrest]; subst. f_equal.
    + by apply pilotOfResult_resolvedPilot.
    + by apply IH.
Qed.

Lemma fetchPilots_sub axiosGet serials sub pilots :
  fetchPilots axiosGet serials = Some pilots →
  sub ⊆ serials →
  fetchPilots axiosGet sub
  = Some (map (λ s, resolvedPilot (axiosGet s)) sub).
Proof.
  intros Hall Hsub.
  destruct (fetchPilots axiosGet sub) as [ps|] eqn:Hps.
  - by rewrite (fetchPilots_Some _ _ _ Hps).
  - exfalso. unfold fetchPilots in *.
    apply mapM_None, Exists_exists in Hps as (answer & Hin & Hthrow).
    apply (list_elem_of_fmap_1 axiosGet) in Hin as (s & -> & Hs).
    assert (Hnone : mapM pilotOfResult (map axiosGet serials) = None).
    { apply mapM_None, Exists_exists. exists (axiosGet s). split; [|done].
      by apply (list_elem_of_fmap_2 axiosGet), Hsub. }
    by rewrite Hnone in Hall.
Qed.

(** With the pilots of the batch at hand, the violations a cycle makes are
    the drones inside the zone, each with the pilot of its own lookup. *)
Lemma violations_of_batch capture axiosGet (dists : list DistAndDrone) :
  imap (λ index dd,
          {| serialNumber := ddSerialNumber dd;
             closestDistanceInMm := distance dd;
             pilot := default None
                        (map (λ s, resolvedPilot (axiosGet s))
                             (map ddSerialNumber dists) !! index);
             latestCaptureDateAndTime := snapshotTimestamp capture |}) dists
  = map (violationOf capture axiosGet) dists.
Proof.
  transitivity (imap (const (violationOf capture axiosGet)) dists);
    [|apply imap_const].
  apply imap_ext. intros i dd Hdd.
  unfold violationOf, const. f_equal.
  change (map ?f (map ?g dists)) with (f <$> (g <$> dists)).
  by rewrite !list_lookup_fmap, Hdd.
Qed.

Lemma newViolations_of_batch capture axiosGet (dists : list DistAndDrone) :
  V2.newViolations capture
    (map (λ s, resolvedPilot (axiosGet s)) (map ddSerialNumber dists)) dists
  = map (violationOf capture axiosGet) dists.
Proof.
  rewrite <- violations_of_batch. unfold V2.newViolations.
  apply imap_ext. intros i dd Hdd. done.
Qed.

Lemma afterBatch_afterSightings capture axiosGet dists v :
  afterBatch (map (violationOf capture axiosGet) dists) v
  = afterSightings (snapshotTimestamp capture)
      (sightings (serialNumber v) dists) v.
Proof.
  revert v. induction dists as [|dd dists IH]; intros v; [done|].
  simpl map. rewrite afterBatch_cons. unfold sightings, afterSightings.
  simpl. case_bool_decide; simpl; apply IH.
Qed.

Lemma sightings_tooClose s dists :
  (∀ dd, dd ∈ dists → ddSerialNumber dd = s →
         Number.le (distance dd) NDZRadiusInMm = true) →
  sightings s (tooClose dists) = sightings s dists.
Proof.
  unfold sightings, tooClose.
  induction dists as [|dd dists IH]; intros Hin; [done|]. simpl.
  destruct (Number.le (distance dd) NDZRadiusInMm) eqn:Hle; simpl.
  - case_bool_decide; [f_equal|]; apply IH; intros; apply Hin; by try right.
  - rewrite bool_decide_eq_false_2.
    + apply IH. intros. apply Hin; by try right.
    + intros Hs. rewrite Hin in Hle; [done|left|done].
Qed.

Lemma updateViolation_id t d v :
  latestCaptureDateAndTime v = t →
  (Number.le d (closestDistanceInMm v) = true → d = closestDistanceInMm v) →
  updateViolation t d v = v.
Proof.
  destruct v as [s c p l]. simpl. intros -> Hd. unfold updateViolation. simpl.
  f_equal. destruct (Number.le d c) eqn:Hle; [by apply Hd|done].
Qed.

(** [updateViolations] leaves a violation the cycle has just pushed as it
    is. *)
Lemma afterSightings_new capture axiosGet dists dd :
  NoDup (map ddSerialNumber (tooClose dists)) →
  dd ∈ tooClose dists →
  afterSightings (snapshotTimestamp capture)
    (sightings (ddSerialNumber dd) dists) (violationOf capture axiosGet dd)
  = violationOf capture axiosGet dd.
Proof.
  intros Hdistinct Hdd. unfold afterSightings.
  assert (Hall : Forall (λ dd', dd' ∈ dists ∧
                          ddSerialNumber dd' = ddSerialNumber dd)
                        (sightings (ddSerialNumber dd) dists)).
  { apply Forall_forall. intros dd' Hdd'. unfold sightings in Hdd'.
    apply list_elem_of_In, filter_In in Hdd' as [Hin Hs].
    apply bool_decide_eq_true in Hs. split; [by apply list_elem_of_In|done]. }
  induction Hall as [|dd' seen [Hin Hs] _ IH]; [done|]. simpl.
  rewrite updateViolation_id; [done|done|]. simpl. intros Hle.
  apply elem_of_tooClose in Hdd as Hdd2. destruct Hdd2 as [_ Hzone].
  assert (Hdd' : dd' ∈ tooClose dists).
  { apply elem_of_tooClose. split; [done|]. by eapply NumberFacts.le_trans. }
  apply list_elem_of_lookup in Hdd as [i Hi].
  apply list_elem_of_lookup in Hdd' as [j Hj].
  assert (i = j) as ->; [|congruence].
  apply (NoDup_lookup _ i j (ddSerialNumber dd) Hdistinct).
  - change (map ?f ?l) with (f <$> l). by rewrite list_lookup_fmap, Hi.
  - change (map ?f ?l) with (f <$> l). rewrite list_lookup_fmap, Hj. simpl.
    by rewrite Hs.
Qed.

Lemma V2_new_onePerDrone capture axiosGet vs :
  onePerDrone vs → distinctViolators capture →
  onePerDrone
    (vs ++ map (violationOf capture axiosGet)
             (V2.tooCloseDistPerNewDrone vs
                (tooClose (distPerDrone (drone capture))))).
Proof.
  intros Hvs Hdistinct. unfold onePerDrone.
  change (NoDup (serialNumber <$> vs ++
                   (violationOf capture axiosGet <$>
                      V2.tooCloseDistPerNewDrone vs
                        (tooClose (distPerDrone (drone capture)))))).
  rewrite fmap_app, <- list_fmap_compose. apply NoDup_app.
  split; [done|]. split.
  - intros s Hs Hnew.
    apply (list_elem_of_fmap_1 _) in Hnew as (dd & -> & Hdd).
    by apply elem_of_tooCloseDistPerNewDrone in Hdd as [_ Hfresh].
  - by apply (NoDup_map_filter ddSerialNumber).
Qed.

(** X24: the two revisions store the same violations after a cycle on the
    same snapshot and the same pilot registry, when they start from the same
    store with one violation per drone, the snapshot reports no serial number
    twice inside the zone and no tracked drone outside the zone, and the
    pilot batch of the first revision does not fail as a whole. *)
Theorem revisions_agree
    (now : Z) (capture : Capture) (axiosGet : string → PilotAnswer)
    (m1 : V1.Monitor) (m2 : V2.Monitor) (pilots : list (option PilotInfo)) :
  V1.violations m1 = V2.violations m2 →
  V1.throttle m1 = false →
  V2.throttle m2 = false →
  onePerDrone (V2.violations m2) →
  distinctViolators capture →
  (∀ d, d ∈ drone capture →
        droneSerialNumber d ∈ map serialNumber (V2.violations m2) →
        withinRadius d) →
  fetchPilots axiosGet
    (map ddSerialNumber (tooClose (distPerDrone (drone capture))))
  = Some pilots →
  V1.violations
    (V1.checkNewViolations now (DronesParsed capture) axiosGet m1).1
  = V2.violations
      (V2.checkNewViolations now (DronesParsed capture) axiosGet m2).1.
Proof.
  intros Hsame Hth1 Hth2 Hone Hdistinct Htracked Hpilots.
  unfold V1.checkNewViolations, V2.checkNewViolations.
  rewrite Hth1, Hth2. simpl.
  destruct (parsedDrones capture) as [|?|ds] eqn:Hparsed;
    [done|done|].
  apply parsedDrones_array in Hparsed as ->.
  destruct (length (drone capture) =? 0)%nat; [done|].
  destruct (tooClose (distPerDrone (drone capture))) as [|dd0 dds] eqn:Hclose;
    [done|]. cbn [length Nat.eqb]. rewrite <- Hclose in *.
  set (E := tooClose (distPerDrone (drone capture))) in *.
  set (S := V2.violations m2) in *.
  rewrite Hpilots. rewrite (fetchPilots_Some _ _ _ Hpilots).
  rewrite (fetchPilots_sub axiosGet (map ddSerialNumber E)
             (map ddSerialNumber (V2.tooCloseDistPerNewDrone S E)) pilots
             Hpilots).
  2:{ intros s (dd & -> & Hdd)%(list_elem_of_fmap_1 _).
      apply (list_elem_of_fmap_2 ddSerialNumber).
      by apply elem_of_tooCloseDistPerNewDrone in Hdd as [Hdd _]. }
  cbn [fst V1.violations V2.violations].
  rewrite violations_of_batch, newViolations_of_batch, Hsame. fold S.
  rewrite <- (app_nil_r S) at 1.
  rewrite addOrUpdateViolations_spec; [| |done|by intros x _ ?%elem_of_nil].
  2:{ unfold onePerDrone.
      change (NoDup (serialNumber <$> (violationOf capture axiosGet <$> E))).
      by rewrite <- list_fmap_compose. }
  rewrite updateViolations_map by (by apply V2_new_onePerDrone).
  simpl. rewrite map_app. f_equal.
  - apply map_ext_in. intros v Hv. rewrite afterBatch_afterSightings.
    f_equal. unfold E. apply sightings_tooClose.
    intros dd (d & -> & Hd)%(list_elem_of_fmap_1 _) Hs. simpl in *.
    apply Htracked; [done|]. rewrite Hs.
    apply (list_elem_of_fmap_2 serialNumber). by apply list_elem_of_In.
  - unfold newIn. rewrite filter_map_swap.
    change (List.filter _ E) with (V2.tooCloseDistPerNewDrone S E).
    rewrite map_map. apply map_ext_in. intros dd Hdd. symmetry.
    apply (afterSightings_new capture axiosGet); [done|].
    apply list_elem_of_In in Hdd.
    by apply elem_of_tooCloseDistPerNewDrone in Hdd as [Hdd _].
Qed.

Lemma revisions_agree_witness :
  V1.violations Sample.trackedV1 = V2.violations Sample.tracked ∧
  V1.throttle Sample.trackedV1 = false ∧
  V2.throttle Sample.tracked = false ∧
  onePerDrone (V2.violations Sample.tracked) ∧
  distinctViolators Sample.d1d2Inside ∧
  (∀ d, d ∈ drone Sample.d1d2Inside →
        droneSerialNumber d ∈ map serialNumber (V2.violations Sample.tracked) →
        withinRadius d) ∧
  fetchPilots Sample.d2Rejected
    (map ddSerialNumber (tooClose (distPerDrone (drone Sample.d1d2Inside))))
  = Some [Some (Sample.pilotOf "D1"); None] ∧
  V1.violations
    (V1.checkNewViolations 3005 (DronesParsed Sample.d1d2Inside)
       Sample.d2Rejected Sample.trackedV1).1
  = V2.violations
      (V2.checkNewViolations 3005 (DronesParsed Sample.d1d2Inside)
         Sample.d2Rejected Sample.tracked).1.
Proof.
  assert (Hone : onePerDrone (V2.violations Sample.tracked)).
  { apply (bool_decide_unpack _). by vm_compute. }
  assert (Hdistinct : distinctViolators Sample.d1d2Inside).
  { apply (bool_decide_unpack _). by vm_compute. }
  assert (Htracked : ∀ d, d ∈ drone Sample.d1d2Inside →
            droneSerialNumber d ∈ map serialNumber (V2.violations Sample.tracked) →
            withinRadius d).
  { intros d Hd _. simpl in Hd.
    apply elem_of_cons in Hd as [->|Hd]; [reflexivity|].
    apply list_elem_of_singleton in Hd as ->. reflexivity. }
  split; [reflexivity|]. split; [reflexivity|]. split; [reflexivity|].
  split; [exact Hone|]. split; [exact Hdistinct|]. split; [exact Htracked|].
  split; [reflexivity|].
  exact (revisions_agree 3005 Sample.d1d2Inside Sample.d2Rejected
           Sample.trackedV1 Sample.tracked [Some (Sample.pilotOf "D1"); None]
           eq_refl eq_refl eq_refl Hone Hdistinct Htracked eq_refl).
Defined.

(** ** The first revision and drones outside the zone *)

Lemma addOrUpdateViolations_untouched batch vs i v :
  vs !! i = Some v →
  serialNumber v ∉ map serialNumber batch →
  V1.addOrUpdateViolations batch vs !! i = Some v.
Proof.
  unfold V1.addOrUpdateViolations. revert vs.
  induction batch as [|x batch IH]; intros vs Hv Hout; [done|].
  simpl in *. apply not_elem_of_cons in Hout as [Hx Hout].
  apply IH; [|done].
  destruct (list_find _ vs) as [[j w]|] eqn:Hfind.
  - apply list_find_Some in Hfind as (Hw & Hs & _).
    rewrite list_lookup_alter_ne; [done|]. intros ->.
    rewrite Hw in Hv. injection Hv as ->. by apply Hx.
  - by apply lookup_app_l_Some.
Qed.

(** X25: the first revision leaves a stored violation exactly as it is,
    capture time included, in every cycle whose snapshot does not report its
    drone inside the zone, whatever else the snapshot reports. *)
Theorem V1_untouched_unless_inside
    (now : Z) (answer : DronesAnswer) (axiosGet : string → PilotAnswer)
    (m : V1.Monitor) (i : nat) (v : NDZViolation) :
  V1.violations m !! i = Some v →
  (∀ capture d, answer = DronesParsed capture → d ∈ drone capture →
                droneSerialNumber d = serialNumber v → ¬ withinRadius d) →
  V1.violations (V1.checkNewViolations now answer axiosGet m).1 !! i = Some v.
Proof.
  intros Hv Houtside. unfold V1.checkNewViolations.
  destruct (V1.throttle m); [done|].
  destruct answer as [capture|[status|]|]; simpl;
    try destruct (status =? 429)%Z; simpl; try done.
  destruct (parsedDrones capture) as [|?|ds] eqn:Hparsed;
    [done|done|].
  apply parsedDrones_array in Hparsed as ->.
  destruct (length (drone capture) =? 0)%nat; [done|].
  destruct (length (tooClose _) =? 0)%nat; [done|]. simpl.
  apply addOrUpdateViolations_untouched; [done|].
  rewrite (map_imap_ext serialNumber ddSerialNumber) by done.
  intros (dd & Hs & Hdd)%(list_elem_of_fmap_1 _).
  apply elem_of_tooClose in Hdd as [Hdd Hle].
  apply (list_elem_of_fmap_1 _) in Hdd as (d & -> & Hd).
  by apply (Houtside capture d).
Qed.

Lemma V1_untouched_witness :
  let v := {| serialNumber := "D1"; closestDistanceInMm := 50000%float;
              pilot := Some (Sample.pilotOf "D1");
              latestCaptureDateAndTime := 1000 |} in
  V1.violations Sample.trackedV1 !! 0%nat = Some v ∧
  V1.violations
    (V1.checkNewViolations 3005 (DronesParsed Sample.d1OutsideD2Inside)
       Sample.allFound Sample.trackedV1).1 !! 0%nat = Some v.
Proof.
  intros v. split; [reflexivity|].
  apply (V1_untouched_unless_inside 3005
           (DronesParsed Sample.d1OutsideD2Inside) Sample.allFound
           Sample.trackedV1 0 v eq_refl).
  intros capture d [= <-] Hd Hs. simpl in Hd.
  apply elem_of_cons in Hd as [->|Hd]; [by vm_compute|].
  apply list_elem_of_singleton in Hd as ->. discriminate Hs.
Defined.
